(** * zbackup: property driven ZFS backup utility

    A shallow embedding of [src/zfs_tools/zbackup.py] and the properties of
    its property reader, decision logic and formatter.

    Conventions of the embedding.
    - A Python [str] is a [string]; its characters are the code points
      below 256.
    - A Python [dict] is an association list in insertion order with
      pairwise distinct keys ([dict_set] keeps them so): the formatter
      iterates dictionaries, so the order is part of the behaviour.
    - Child processes, [stderr] output and exceptions are explicit: a
      computation is a function of a [world] that returns either an
      exception or a value, and the next world. *)

From Stdlib Require Import ZArith List Bool Lia Ascii String.
From Stdlib Require Import DecimalString Sorting.Sorted Permutation.
From Stdlib Require Import DecimalPos DecimalZ.
Import ListNotations.

Local Open Scope string_scope.
Local Open Scope list_scope.

(** ** Python string primitives *)

Module Py.

Definition code (c : ascii) : nat := nat_of_ascii c.

(** [s.startswith(p)] *)
Definition startswith (s p : string) : bool := String.prefix p s.

(** [s[n:]] for [n >= 0] *)
Fixpoint drop (n : nat) (s : string) : string :=
  match n, s with
  | O, _ => s
  | S n', String _ s' => drop n' s'
  | S _, EmptyString => EmptyString
  end.

(** [s[:n]] for [n >= 0] *)
Fixpoint take (n : nat) (s : string) : string :=
  match n, s with
  | S n', String c s' => String c (take n' s')
  | _, _ => EmptyString
  end.

(** [s.endswith(suf)] *)
Definition endswith (s suf : string) : bool :=
  (String.length suf <=? String.length s)%nat
  && String.eqb (drop (String.length s - String.length suf) s) suf.

(** [s[:-n]] for [n > 0] *)
Definition drop_last (n : nat) (s : string) : string :=
  take (String.length s - n) s.

(** [s.split(sep)] for a one-character separator: never the empty list. *)
Fixpoint split (sep : ascii) (s : string) : list string :=
  match s with
  | EmptyString => [EmptyString]
  | String c s' =>
      if Ascii.eqb c sep then EmptyString :: split sep s'
      else match split sep s' with
           | [] => [String c EmptyString]
           | f :: r => String c f :: r
           end
  end.

(** [sep.join(l)] *)
Definition join (sep : string) (l : list string) : string :=
  String.concat sep l.

(** [str.isspace] on one character below 256: TAB, LF, VT, FF, CR, the
    separators FS, GS, RS, US, SPACE, NEL and NBSP. *)
Definition isspace (c : ascii) : bool :=
  let n := code c in
  ((9 <=? n) && (n <=? 13) || (28 <=? n) && (n <=? 32)
   || (n =? 133) || (n =? 160))%nat.

(** The last word being read and the words after it. *)
Fixpoint words (s : string) : string * list string :=
  match s with
  | EmptyString => (EmptyString, [])
  | String c s' =>
      let (w, ws) := words s' in
      if isspace c
      then (EmptyString, match w with EmptyString => ws | _ => w :: ws end)
      else (String c w, ws)
  end.

(** [s.split()] with no argument: the maximal runs of non-whitespace. *)
Definition split_ws (s : string) : list string :=
  let (w, ws) := words s in
  match w with EmptyString => ws | _ => w :: ws end.

(** [s.rstrip("\n")] *)
Fixpoint rstrip_nl (s : string) : string :=
  match s with
  | EmptyString => EmptyString
  | String c s' =>
      match rstrip_nl s' with
      | EmptyString => if Ascii.eqb c "010" then EmptyString
                       else String c EmptyString
      | r => String c r
      end
  end.

(** *** [int(s)] *)

(** White space skipped by [int] around the literal: the C-locale white
    space, and NEL and NBSP, which are turned into spaces beforehand. *)
Definition int_space (c : ascii) : bool :=
  let n := code c in
  ((9 <=? n) && (n <=? 13) || (n =? 32) || (n =? 133) || (n =? 160))%nat.

Definition is_digit (c : ascii) : bool :=
  let n := code c in ((48 <=? n) && (n <=? 57))%nat.

Definition digit_value (c : ascii) : Z := Z.of_nat (code c - 48).

Fixpoint lskip (p : ascii -> bool) (s : string) : string :=
  match s with
  | String c s' => if p c then lskip p s' else s
  | EmptyString => EmptyString
  end.

(** The end of the digit run: there must be a digit, and the last
    character read must not be an underscore. *)
Definition digits_end (acc : Z) (prev : option ascii) (rest : string)
  : option (Z * string) :=
  match prev with
  | None => None
  | Some p => if Ascii.eqb p "_" then None else Some (acc, rest)
  end.

(** Decimal digits with single underscores between them. [prev] is the
    character read last. *)
Fixpoint digits (acc : Z) (prev : option ascii) (s : string)
  : option (Z * string) :=
  match s with
  | EmptyString => digits_end acc prev s
  | String c s' =>
      if is_digit c then digits (10 * acc + digit_value c) (Some c) s'
      else if Ascii.eqb c "_" then
        match prev with
        | None => None
        | Some p => if Ascii.eqb p "_" then None
                    else digits acc (Some c) s'
        end
      else digits_end acc prev s
  end.

(** [int(s)]: [None] stands for [ValueError]. The interpreter's optional
    cap on the number of digits is not part of the model. *)
Definition int (s : string) : option Z :=
  let s1 := lskip int_space s in
  let '(neg, s2) :=
    match s1 with
    | String "-" r => (true, r)
    | String "+" r => (false, r)
    | _ => (false, s1)
    end in
  match digits 0 None s2 with
  | None => None
  | Some (v, rest) =>
      match lskip int_space rest with
      | EmptyString => Some (if neg then (- v)%Z else v)
      | _ => None
      end
  end.

(** [str(n)] for an integer *)
Definition str (n : Z) : string := NilZero.string_of_int (Z.to_int n).

(** *** [repr] of a string and of a pair of strings *)

Definition hex_digit (n : nat) : ascii :=
  if (n <? 10)%nat then ascii_of_nat (48 + n) else ascii_of_nat (87 + n).

Definition hex_escape (c : ascii) : string :=
  String "\" (String "x" (String (hex_digit (code c / 16))
                            (String (hex_digit (code c mod 16)) EmptyString))).

(** Printable characters below 256 that are not ASCII: all from 161 on
    but the soft hyphen. *)
Definition isprintable_high (c : ascii) : bool :=
  let n := code c in ((161 <=? n) && negb (n =? 173))%nat.

Definition repr_char (quote c : ascii) : string :=
  let n := code c in
  if Ascii.eqb c quote || Ascii.eqb c "\" then String "\" (String c EmptyString)
  else if (n =? 9)%nat then "\t"
  else if (n =? 10)%nat then "\n"
  else if (n =? 13)%nat then "\r"
  else if ((n <? 32) || (n =? 127))%nat then hex_escape c
  else if (n <? 127)%nat then String c EmptyString
  else if isprintable_high c then String c EmptyString
  else hex_escape c.

Fixpoint has_char (q : ascii) (s : string) : bool :=
  match s with
  | EmptyString => false
  | String c s' => Ascii.eqb c q || has_char q s'
  end.

Fixpoint repr_body (quote : ascii) (s : string) : string :=
  match s with
  | EmptyString => EmptyString
  | String c s' => repr_char quote c ++ repr_body quote s'
  end.

(** [repr(s)]: single quotes, unless [s] has a single quote and no double
    quote. *)
Definition repr (s : string) : string :=
  let quote : ascii :=
    if has_char "'" s && negb (has_char "034" s) then "034"%char else "'"%char in
  String quote (repr_body quote s ++ String quote EmptyString).

(** [repr((a, b))], which is also what [%s] prints for a tuple *)
Definition repr_pair (p : string * string) : string :=
  "(" ++ repr (fst p) ++ ", " ++ repr (snd p) ++ ")".

End Py.

(** ** Dictionaries *)

Definition dict (V : Type) : Type := list (string * V).

(** [d[k]], [None] where Python raises [KeyError] *)
Fixpoint dict_get {V : Type} (d : dict V) (k : string) : option V :=
  match d with
  | [] => None
  | (k', v) :: r => if String.eqb k' k then Some v else dict_get r k
  end.

(** [k in d] *)
Definition dict_mem {V : Type} (d : dict V) (k : string) : bool :=
  match dict_get d k with Some _ => true | None => false end.

(** [d[k] = v]: a key already there keeps its place. *)
Fixpoint dict_set {V : Type} (d : dict V) (k : string) (v : V) : dict V :=
  match d with
  | [] => [(k, v)]
  | (k', v') :: r =>
      if String.eqb k' k then (k', v) :: r else (k', v') :: dict_set r k v
  end.

(** [d.keys()] *)
Definition dict_keys {V : Type} (d : dict V) : list string := map fst d.

(** ** Effects: messages, child processes, exceptions *)

Inductive event : Type :=
| Stderr (msg : string)
| VerboseStderr (msg : string)
| Exec (cmd : list string) (status : Z).

Inductive exn : Type :=
| CalledProcessError (returncode : Z) (cmd : list string)
| ValueError.

(** What has happened so far, and the exit statuses of the child
    processes still to be run (0 once the list is used up). *)
Record world : Type := World {
  trace : list event;
  pending : list Z
}.

Definition M (A : Type) : Type := world -> (exn + A) * world.

Definition ret {A : Type} (a : A) : M A := fun w => (inr a, w).

Definition raise {A : Type} (e : exn) : M A := fun w => (inl e, w).

Definition bind {A B : Type} (m : M A) (k : A -> M B) : M B :=
  fun w =>
    match m w with
    | (inr a, w') => k a w'
    | (inl e, w') => (inl e, w')
    end.

Notation "x <- m ;; k" := (bind m (fun x => k))
  (at level 61, m at next level, right associativity).
Notation "' pat <- m ;; k" := (bind m (fun x => match x with pat => k end))
  (at level 61, pat pattern, m at next level, right associativity).
Notation "m ;; k" := (bind m (fun _ => k))
  (at level 61, right associativity).

Definition emit (e : event) : M unit :=
  fun w => (inr tt, World (trace w ++ [e]) (pending w)).

(** Modelled from the spec: [zfs_tools.util.stderr], which is imported and
    not part of the file: the message is reported. *)
Definition stderr (msg : string) : M unit := emit (Stderr msg).

(** Modelled from the spec: [zfs_tools.util.verbose_stderr], imported as
    well: a message for the verbose output, whose sink decides on the
    process-wide verbosity flag whether to show it. *)
Definition verbose_stderr (msg : string) : M unit := emit (VerboseStderr msg).

(** [subprocess.check_call(cmd)]: the child runs to its end; a status other
    than 0 raises. *)
Definition check_call (cmd : list string) : M unit :=
  fun w =>
    let status := hd 0%Z (pending w) in
    let w' := World (trace w ++ [Exec cmd status]) (tl (pending w)) in
    if (status =? 0)%Z then (inr tt, w')
    else (inl (CalledProcessError status cmd), w').

(** [for x in l: body(x)] *)
Fixpoint for_each {A : Type} (l : list A) (body : A -> M unit) : M unit :=
  match l with
  | [] => ret tt
  | x :: r => body x ;; for_each r body
  end.

(** ** The program *)

Definition ZBACKUP_MODULE : string := "com.github.tesujimath.zbackup".
Definition ZBACKUP_MODULE_SKIPLEN : nat := String.length ZBACKUP_MODULE + 1.

Definition REPLICA_PROPERTY : string := "replica".
Definition REPLICATE_PROPERTY : string := "replicate".
Definition SNAPSHOTS_PROPERTY_SUFFIX : string := "-snapshots".
Definition SNAPSHOT_LIMIT_PROPERTY_SUFFIX : string := "-snapshot-limit".

(** The options of the command line that the functions below read. *)
Record options : Type := Options {
  delete_tiers : option string;
  prefix : string;
  verbose : bool;
  timeformat : option string;
  dryrun : bool;
  zreplicate_options : option string;
  zsnap_options : option string
}.

(** One filesystem's properties: bare name to (value, source). *)
Definition property_set : Type := dict (string * string).

Definition highlight (line : string) : string :=
  "========== " ++ line ++ " ==========".

Definition zprefixed (prop : string) : string :=
  ZBACKUP_MODULE ++ ":" ++ prop.

Definition is_zprefixed (maybe_prefixed_property : string) : bool :=
  Py.startswith maybe_prefixed_property (ZBACKUP_MODULE ++ ":").

Definition zunprefixed (prefixed_property : string) : string :=
  Py.drop ZBACKUP_MODULE_SKIPLEN prefixed_property.

Definition snapshots_property (tier : string) : string :=
  tier ++ SNAPSHOTS_PROPERTY_SUFFIX.

Definition snapshot_limit_property (tier : string) : string :=
  tier ++ SNAPSHOT_LIMIT_PROPERTY_SUFFIX.

Definition zbackup_properties (tier : string) : list string :=
  [REPLICA_PROPERTY; REPLICATE_PROPERTY;
   snapshots_property tier; snapshot_limit_property tier].

(** *** The property reader *)

(** The body of the loop of [get_backup_properties] (lines 86-98) for one
    line of the output of [zfs get]: the dictionary after the line. A line
    that does not have four fields fails to unpack. *)
Definition read_line (properties : dict property_set) (line : string)
  : M (dict property_set) :=
  match Py.split "009" (Py.rstrip_nl line) with
  | [name; prop; value; source] =>
      if is_zprefixed prop then
        let bare_property := zunprefixed prop in
        let source :=
          if Py.startswith source "inherited" then "inherited" else source in
        if String.eqb source "local" || String.eqb source "received" then
          let properties :=
            if negb (dict_mem properties name)
            then dict_set properties name []
            else properties in
          if negb (String.eqb value "-") then
            let inner :=
              match dict_get properties name with
              | Some d => d
              | None => []
              end in
            let properties :=
              dict_set properties name
                       (dict_set inner bare_property (value, source)) in
            verbose_stderr
              (name ++ " " ++ bare_property ++ "=" ++ value ++ " " ++ source) ;;
            ret properties
          else ret properties
        else ret properties
      else ret properties
  | _ => raise ValueError
  end.

Fixpoint read_lines (properties : dict property_set) (lines : list string)
  : M (dict property_set) :=
  match lines with
  | [] => ret properties
  | line :: rest =>
      properties <- read_line properties line ;;
      read_lines properties rest
  end.

(** [get_backup_properties(zpool, options, tier)]. [zfs_get] is the child
    process: the lines it writes and its exit status, for a command. The
    [options] are not read. *)
Definition get_backup_properties
  (zfs_get : list string -> list string * Z)
  (zpool : string) (tier : option string) : M (dict property_set) :=
  let property_ids :=
    match tier with
    | Some tier => Py.join "," (map zprefixed (zbackup_properties tier))
    | None => "all"
    end in
  let cmd := ["zfs"; "get"; "-H"; "-r"; "-t"; "filesystem"; property_ids; zpool] in
  let (stdout, retcode) := zfs_get cmd in
  properties <- read_lines [] stdout ;;
  if negb (retcode =? 0)%Z then raise (CalledProcessError retcode cmd)
  else ret properties.

(** *** Snapshots and replication *)

Definition zsnap_command (tier filesystem : string) (take_snapshot : bool)
  (keep : Z) (options : options) : list string :=
  ["zsnap"; "-k"; Py.str keep; "-p"; (prefix options ++ tier ++ "-")%string]
  ++ (if negb take_snapshot then ["--nosnapshot"] else [])
  ++ (if verbose options then ["-v"] else [])
  ++ (match timeformat options with Some t => ["-t"; t] | None => [] end)
  ++ (if dryrun options then ["-n"] else [])
  ++ (match zsnap_options options with
      | Some o => Py.split_ws o
      | None => []
      end)
  ++ [filesystem].

Definition snapshot (tier filesystem : string) (take_snapshot : bool)
  (keep : Z) (options : options) : M unit :=
  let zsnap_command := zsnap_command tier filesystem take_snapshot keep options in
  verbose_stderr (highlight (Py.join " " zsnap_command)) ;;
  check_call zsnap_command.

Definition zreplicate_command (filesystem destination : string)
  (options : options) : list string :=
  ["zreplicate"; "--create-destination"; "--no-replication-stream"]
  ++ (if verbose options then ["-v"] else [])
  ++ (if dryrun options then ["-n"] else [])
  ++ (match zreplicate_options options with
      | Some o => Py.split_ws o
      | None => []
      end)
  ++ [filesystem; destination].

(** The tiers whose snapshots [replicate] deletes first (lines 126-127). *)
Definition tiers_to_delete (options : options) : list string :=
  match delete_tiers options with
  | Some tiers => Py.split "," tiers
  | None => []
  end.

Definition replicate (filesystem destination : string) (options : options)
  : M unit :=
  for_each (tiers_to_delete options)
           (fun tier => snapshot tier filesystem false 0 options) ;;
  let zreplicate_command := zreplicate_command filesystem destination options in
  verbose_stderr (highlight (Py.join " " zreplicate_command)) ;;
  check_call zreplicate_command.

(** *** The decision *)

Definition property_has_value (properties : property_set)
  (property_name : string) : bool :=
  match dict_get properties property_name with
  | Some (value, source) => negb (String.eqb value "none")
  | None => false
  end.

Definition badly_formed (property_name : string) (entry : string * string)
  (filesystem : string) : string :=
  "badly formed " ++ property_name ++ "=" ++ Py.repr_pair entry
  ++ " property for " ++ filesystem ++ " (should be integer)".

Definition property_int_value_or_none (filesystem : string)
  (properties : property_set) (property_name : string)
  : M (option Z * option string) :=
  if property_has_value properties property_name then
    match dict_get properties property_name with
    | Some (value_s, source) =>
        match Py.int value_s with
        | Some value => ret (Some value, Some source)
        | None =>
            stderr (badly_formed property_name (value_s, source) filesystem) ;;
            ret (None, Some source)
        end
    | None => ret (None, None)
    end
  else ret (None, None).

(** Lines 173-186 of [backup_or_reap_snapshots]: the values of
    [take_snapshot] and of [snapshots] when line 187 is reached. *)
Definition snapshot_decision (tier filesystem : string)
  (properties : property_set) : M (bool * option Z) :=
  let take_snapshot := false in
  '(snapshots, snapshots_source) <-
    property_int_value_or_none filesystem properties (snapshots_property tier) ;;
  let take_snapshot :=
    match snapshots, snapshots_source with
    | Some _, Some source => if String.eqb source "local" then true else take_snapshot
    | _, _ => take_snapshot
    end in
  '(snapshot_limit, snapshot_limit_source) <-
    property_int_value_or_none filesystem properties
                               (snapshot_limit_property tier) ;;
  let snapshots :=
    match snapshot_limit with
    | Some limit => Some limit
    | None => snapshots
    end in
  ret (take_snapshot, snapshots).

(** The condition of lines 191-195. *)
Definition replicate_requested (tier : string) (properties : property_set)
  : bool :=
  property_has_value properties REPLICATE_PROPERTY
  && match dict_get properties REPLICATE_PROPERTY with
     | Some (value, source) => String.eqb value tier && String.eqb source "local"
     | None => false
     end
  && property_has_value properties REPLICA_PROPERTY.

(** Lines 190-199. *)
Definition replicate_if_requested (tier filesystem : string)
  (properties : property_set) (options : options) : M unit :=
  if replicate_requested tier properties then
    match dict_get properties REPLICA_PROPERTY with
    | Some (replica, replica_source) =>
        if String.eqb replica_source "local" then
          for_each (Py.split "," replica)
                   (fun x => replicate filesystem replica options)
        else ret tt
    | None => ret tt
    end
  else ret tt.

Definition backup_or_reap_snapshots (tier filesystem : string)
  (properties : property_set) (options : options) : M unit :=
  '(take_snapshot, snapshots) <- snapshot_decision tier filesystem properties ;;
  match snapshots with
  | Some keep => snapshot tier filesystem take_snapshot keep options
  | None => ret tt
  end ;;
  replicate_if_requested tier filesystem properties options.

(** The destinations that [backup_or_reap_snapshots] hands to [replicate],
    call after call. *)
Definition replica_targets (tier : string) (properties : property_set)
  : list string :=
  if replicate_requested tier properties then
    match dict_get properties REPLICA_PROPERTY with
    | Some (replica, replica_source) =>
        if String.eqb replica_source "local"
        then map (fun x => replica) (Py.split "," replica)
        else []
    | None => []
    end
  else [].

(** *** The formatter *)

(** [sorted(l)] on strings, which Python orders by code points. *)
Fixpoint insert_sorted (x : string) (l : list string) : list string :=
  match l with
  | [] => [x]
  | y :: r => if String.leb x y then x :: l else y :: insert_sorted x r
  end.

Fixpoint sorted (l : list string) : list string :=
  match l with
  | [] => []
  | x :: r => insert_sorted x (sorted r)
  end.

(** Lines 207-213: [(local_and_defaults, non_local)] after the first loop. *)
Definition split_by_source (properties : property_set)
  : property_set * property_set :=
  fold_left
    (fun (acc : property_set * property_set) (name : string) =>
       let (local_and_defaults, non_local) := acc in
       match dict_get properties name with
       | Some entry =>
           if String.eqb (snd entry) "local"
           then (dict_set local_and_defaults name entry, non_local)
           else (local_and_defaults, dict_set non_local name entry)
       | None => acc
       end)
    (dict_keys properties) ([], []).

(** Lines 216-220: the tier of a snapshots or snapshot-limit property. *)
Definition snapshot_tier_of (name : string) : option string :=
  if Py.endswith name SNAPSHOTS_PROPERTY_SUFFIX then
    Some (Py.drop_last (String.length SNAPSHOTS_PROPERTY_SUFFIX) name)
  else if Py.endswith name SNAPSHOT_LIMIT_PROPERTY_SUFFIX then
    Some (Py.drop_last (String.length SNAPSHOT_LIMIT_PROPERTY_SUFFIX) name)
  else None.

(** Lines 215-225: [local_and_defaults] after the second loop. *)
Definition fill_defaults (local_and_defaults non_local : property_set)
  : property_set :=
  fold_left
    (fun (local_and_defaults : property_set) (name : string) =>
       match snapshot_tier_of name, dict_get non_local name with
       | Some snapshot_tier, Some entry =>
           if negb (dict_mem local_and_defaults
                             (snapshot_limit_property snapshot_tier))
           then dict_set local_and_defaults
                         (snapshot_limit_property snapshot_tier) entry
           else local_and_defaults
       | _, _ => local_and_defaults
       end)
    (dict_keys non_local) local_and_defaults.

Definition is_replication_name (name : string) : bool :=
  String.eqb name REPLICA_PROPERTY || String.eqb name REPLICATE_PROPERTY.

(** Lines 227-235: [names]. *)
Definition format_names (local_and_defaults : property_set) : list string :=
  filter (fun name => negb (is_replication_name name))
         (sorted (dict_keys local_and_defaults))
  ++ filter is_replication_name (sorted (dict_keys local_and_defaults)).

(** One [name=value] of line 236. *)
Definition format_token (local_and_defaults : property_set) (name : string)
  : string :=
  match dict_get local_and_defaults name with
  | Some entry => name ++ "=" ++ fst entry
  | None => name ++ "="
  end.

(** The strings that line 236 joins. *)
Definition format_tokens (properties : property_set) : list (string * string) :=
  let (local_and_defaults, non_local) := split_by_source properties in
  let local_and_defaults := fill_defaults local_and_defaults non_local in
  map (fun name => (name, format_token local_and_defaults name))
      (format_names local_and_defaults).

Definition format_backup_properties (properties : property_set) : string :=
  Py.join " " (map snd (format_tokens properties)).

(** ** The modes of the command line *)

(** These functions also write to standard output and, in [get_zpools],
    index a list: a session is what was written to standard output, line
    by line, and the world. *)

Inductive error : Type :=
| Raised (e : exn)
| IndexError.

Record session : Type := Session {
  printed : list string;
  sys : world
}.

Definition S (A : Type) : Type := session -> (error + A) * session.

Definition sret {A : Type} (a : A) : S A := fun s => (inr a, s).

Definition sraise {A : Type} (e : error) : S A := fun s => (inl e, s).

Definition sbind {A B : Type} (m : S A) (k : A -> S B) : S B :=
  fun s =>
    match m s with
    | (inr a, s') => k a s'
    | (inl e, s') => (inl e, s')
    end.

Notation "x <~ m ;; k" := (sbind m (fun x => k))
  (at level 61, m at next level, right associativity).
Notation "m ;;; k" := (sbind m (fun _ => k))
  (at level 61, right associativity).

(** A computation on the world, in a session. *)
Definition lift {A : Type} (m : M A) : S A :=
  fun s =>
    match m (sys s) with
    | (inr a, w) => (inr a, Session (printed s) w)
    | (inl e, w) => (inl (Raised e), Session (printed s) w)
    end.

(** [sys.stdout.write(text)], and [print] with the end of line added *)
Definition stdout_write (text : string) : S unit :=
  fun s => (inr tt, Session (printed s ++ [text]) (sys s)).

(** [sys.stderr.write(text)] *)
Definition stderr_write (text : string) : S unit := lift (emit (Stderr text)).

Fixpoint sfor_each {A : Type} (l : list A) (body : A -> S unit) : S unit :=
  match l with
  | [] => sret tt
  | x :: r => body x ;;; sfor_each r body
  end.

(** White space for [split()] on bytes: [get_zpools] reads the lines of
    [zpool list] as bytes, where only the ASCII white space separates. *)
Definition bytes_isspace (c : ascii) : bool :=
  let n := Py.code c in
  ((9 <=? n) && (n <=? 13) || (n =? 32))%nat.

Fixpoint bytes_words (s : string) : string * list string :=
  match s with
  | EmptyString => (EmptyString, [])
  | String c s' =>
      let (w, ws) := bytes_words s' in
      if bytes_isspace c
      then (EmptyString, match w with EmptyString => ws | _ => w :: ws end)
      else (String c w, ws)
  end.

(** [line.split()] on bytes *)
Definition bytes_split_ws (s : string) : list string :=
  let (w, ws) := bytes_words s in
  match w with EmptyString => ws | _ => w :: ws end.

(** The loop of [get_zpools] (lines 70-71): the first word of each line.
    A line without a word has no first word. *)
Fixpoint zpool_names (lines : list string) (zpools : list string)
  : S (list string) :=
  match lines with
  | [] => sret zpools
  | line :: rest =>
      match bytes_split_ws line with
      | first :: _ => zpool_names rest (zpools ++ [first])
      | [] => sraise IndexError
      end
  end.

(** [get_zpools()]. [popen] is the child process: the lines it writes and
    its exit status, which is not looked at. *)
Definition get_zpools (popen : list string -> list string * Z)
  : S (list string) :=
  zpool_names (fst (popen ["zpool"; "list"; "-H"])) [].

(** The body of the loop of [list_backup_properties] for one pool. *)
Definition list_pool (popen : list string -> list string * Z)
  (zpool : string) : S unit :=
  backup_properties <~ lift (get_backup_properties popen zpool None) ;;
  sfor_each (sorted (dict_keys backup_properties))
    (fun filesystem =>
       match dict_get backup_properties filesystem with
       | Some properties =>
           stdout_write (filesystem ++ " "
                         ++ format_backup_properties properties
                         ++ String "010" EmptyString)
       | None => sret tt
       end).


(** The body of the loop of [set_backup_properties]. *)
Definition set_backup_property (filesystem property_value : string)
  : S unit :=
  match Py.split "=" property_value with
  | [prop; value] =>
      let zfs_command :=
        ["zfs"; "set"; (zprefixed prop ++ "=" ++ value)%string; filesystem] in
      stdout_write (Py.join " " zfs_command ++ String "010" EmptyString) ;;;
      lift (check_call zfs_command)
  | _ =>
      stderr_write
        ("zbackup: ignoring badly formatted property=value: "
         ++ property_value ++ String "010" EmptyString)
  end.

Definition set_backup_properties (filesystem : string)
  (property_values : list string) : S unit :=
  sfor_each property_values (set_backup_property filesystem).

Definition unset_backup_properties (filesystem : string)
  (properties : list string) : S unit :=
  sfor_each properties
    (fun prop =>
       let zfs_command := ["zfs"; "inherit"; zprefixed prop; filesystem] in
       stdout_write (Py.join " " zfs_command ++ String "010" EmptyString) ;;;
       lift (check_call zfs_command)).



(** ** Notions used to state the properties *)

(** [part] occurs in [msg]. *)
Definition mentions (msg part : string) : Prop :=
  exists before after, msg = (before ++ part ++ after)%string.

(** The integer that [property_int_value_or_none] returns for a property,
    without the report. *)
Definition parsed_value (properties : property_set) (property_name : string)
  : option Z :=
  match dict_get properties property_name with
  | Some (value_s, source) =>
      if String.eqb value_s "none" then None else Py.int value_s
  | None => None
  end.

(** The child processes among the events. *)
Definition execs (evs : list event) : list event :=
  filter (fun e => match e with Exec _ _ => true | _ => false end) evs.

(** The first world: nothing has happened, every child process succeeds. *)
Definition w0 : world := World [] [].

(** The first session: nothing written, nothing run. *)
Definition s0 : session := Session [] w0.

(** The order of the names: code points, position by position. *)
Definition name_le (a b : string) : Prop := String.leb a b = true.

(** An entry that the reader keeps: it has a value, and the source is
    [local] or [received]. *)
Definition kept (entry : string * string) : Prop :=
  fst entry <> "-" /\ (snd entry = "local" \/ snd entry = "received").

(** Every entry of every filesystem is a kept one. *)
Definition all_kept (properties : dict property_set) : Prop :=
  Forall (fun fs => Forall (fun e => kept (snd e)) (snd fs)) properties.

(** A line of the output of [zfs get -H]: four fields and the end of line. *)
Definition zfs_row (name prop value source : string) : string :=
  name ++ String "009" prop ++ String "009" value ++ String "009" source
  ++ String "010" EmptyString.

(** A pool with one filesystem, [daily-snapshots] set on it and
    [daily-snapshot-limit] inherited from the pool. *)
Definition zfs_get_tank (cmd : list string) : list string * Z :=
  ([zfs_row "tank/home" (zprefixed "daily-snapshots") "7" "local";
    zfs_row "tank/home" (zprefixed "daily-snapshot-limit") "3"
            "inherited from tank";
    zfs_row "tank/home" (zprefixed "replica") "-" "local";
    zfs_row "tank/home" "compression" "lz4" "local"],
   0%Z).

(** The child processes of a machine with the pool [tank]: [zpool list]
    and [zfs get]. *)
Definition popen_tank (cmd : list string) : list string * Z :=
  match cmd with
  | "zpool" :: _ =>
      ([("tank" ++ String "009" "1T" ++ String "010" EmptyString)%string],
       0%Z)
  | _ => zfs_get_tank cmd
  end.

(** The command of [get_backup_properties] (lines 79-83). *)
Definition zfs_get_command (zpool : string) (tier : option string)
  : list string :=
  ["zfs"; "get"; "-H"; "-r"; "-t"; "filesystem";
   match tier with
   | Some tier => Py.join "," (map zprefixed (zbackup_properties tier))
   | None => "all"
   end;
   zpool].

(** The fields of a line as the reader unpacks it (line 86). *)
Definition fields (line : string) : list string :=
  Py.split "009" (Py.rstrip_nl line).

(** Every child process that [m] runs has a command for which [P] holds,
    and [m] only adds to what has happened. *)
Definition runs_only {A : Type} (P : list string -> Prop) (m : M A) : Prop :=
  forall (w w' : world) (r : exn + A),
    m w = (r, w') ->
    exists evs,
      trace w' = trace w ++ evs
      /\ forall cmd status, In (Exec cmd status) evs -> P cmd.

(** A command on [filesystem]: [zsnap] with the filesystem as its last
    argument, or [zreplicate] with the filesystem as its last argument but
    one. *)
Definition command_on (filesystem : string) (cmd : list string) : Prop :=
  (exists args, cmd = "zsnap" :: args ++ [filesystem])
  \/ (exists args destination,
        cmd = "zreplicate" :: args ++ [filesystem; destination]).


(** Every child process still to be run ends with status 0. *)
Definition all_succeed (w : world) : Prop :=
  Forall (fun status => status = 0%Z) (pending w).

(** [m] with tools that succeed: it returns, and the child processes it
    runs are [cmds], in this order. *)
Definition succeeds (m : M unit) (cmds : list (list string)) : Prop :=
  forall w : world,
    all_succeed w ->
    exists evs,
      m w = (inr tt,
             World (trace w ++ evs) (skipn (List.length cmds) (pending w)))
      /\ execs evs = map (fun cmd => Exec cmd 0) cmds.

(** The commands of one call of [replicate]: the prunes, then the
    replication. *)
Definition replicate_plan (filesystem destination : string)
  (options : options) : list (list string) :=
  map (fun tier => zsnap_command tier filesystem false 0 options)
      (tiers_to_delete options)
  ++ [zreplicate_command filesystem destination options].

(** The commands of [backup_or_reap_snapshots], read off the properties:
    one [zsnap] if there is a count, which is the snapshot-limit value if it
    has one and the snapshots value otherwise, taking a snapshot if the
    snapshots value is a local integer; then the commands of [replicate]
    for each destination. *)
Definition backup_plan (tier filesystem : string) (properties : property_set)
  (options : options) : list (list string) :=
  match (match parsed_value properties (snapshot_limit_property tier) with
         | Some limit => Some limit
         | None => parsed_value properties (snapshots_property tier)
         end) with
  | Some keep =>
      [zsnap_command tier filesystem
         (match dict_get properties (snapshots_property tier) with
          | Some (value_s, source) =>
              match parsed_value properties (snapshots_property tier) with
              | Some _ => String.eqb source "local"
              | None => false
              end
          | None => false
          end)
         keep options]
  | None => []
  end
  ++ flat_map (fun destination =>
                 replicate_plan filesystem destination options)
              (replica_targets tier properties).

(** The body of the second loop of the formatter (lines 216-225). *)
Definition fill_default (non_local local_and_defaults : property_set)
  (name : string) : property_set :=
  match snapshot_tier_of name, dict_get non_local name with
  | Some snapshot_tier, Some entry =>
      if negb (dict_mem local_and_defaults
                        (snapshot_limit_property snapshot_tier))
      then dict_set local_and_defaults
                    (snapshot_limit_property snapshot_tier) entry
      else local_and_defaults
  | _, _ => local_and_defaults
  end.

(** Lines 207-225: [local_and_defaults] when the names are formatted. *)
Definition effective_policy (properties : property_set) : property_set :=
  fill_defaults (fst (split_by_source properties))
                (snd (split_by_source properties)).

(** The entry of a name if its source is [local]. *)
Definition local_entry (properties : property_set) (name : string)
  : option (string * string) :=
  match dict_get properties name with
  | Some entry => if String.eqb (snd entry) "local" then Some entry else None
  | None => None
  end.

(** The entry of a name if its source is not [local]. *)
Definition non_local_entry (properties : property_set) (name : string)
  : option (string * string) :=
  match dict_get properties name with
  | Some entry => if String.eqb (snd entry) "local" then None else Some entry
  | None => None
  end.




(** How often [c] is in [s]. *)
Fixpoint count_char (c : ascii) (s : string) : nat :=
  match s with
  | EmptyString => 0
  | String x s' => (if Ascii.eqb x c then 1 else 0) + count_char c s'
  end.

(** The texts reported on standard error among the events. *)
Fixpoint reports (evs : list event) : list string :=
  match evs with
  | [] => []
  | Stderr msg :: r => msg :: reports r
  | _ :: r => reports r
  end.

(** A command as [set] and [unset] print it. *)
Definition command_line (cmd : list string) : string :=
  Py.join " " cmd ++ String "010" EmptyString.

(** [m] with tools that succeed: it returns, runs [cmds], writes [out] to
    standard output and reports [errs]. *)
Definition sdoes (m : S unit) (cmds : list (list string))
  (out errs : list string) : Prop :=
  forall s : session,
    all_succeed (sys s) ->
    exists evs,
      m s = (inr tt,
             Session (printed s ++ out)
                     (World (trace (sys s) ++ evs)
                            (skipn (List.length cmds) (pending (sys s)))))
      /\ execs evs = map (fun cmd => Exec cmd 0) cmds
      /\ reports evs = errs.

(** * Properties *)

(** ** The primitives on examples *)

Example int_plain : Py.int "7" = Some 7%Z.
Proof. reflexivity. Qed.

Example int_signed_spaced : Py.int " -1_000 " = Some (-1000)%Z.
Proof. reflexivity. Qed.

Example int_word : Py.int "seven" = None.
Proof. reflexivity. Qed.

Example int_double_underscore : Py.int "1__0" = None.
Proof. reflexivity. Qed.

Example int_empty : Py.int "" = None.
Proof. reflexivity. Qed.

Example str_negative : Py.str (-15) = "-15".
Proof. reflexivity. Qed.

Example split_keeps_empty : Py.split "," "a,,b" = ["a"; ""; "b"].
Proof. reflexivity. Qed.

Example split_ws_runs : Py.split_ws "  -x -y  z " = ["-x"; "-y"; "z"].
Proof. reflexivity. Qed.

Example repr_pair_plain :
  Py.repr_pair ("seven", "local") = "('seven', 'local')".
Proof. reflexivity. Qed.

Example zunprefixed_zprefixed :
  zunprefixed (zprefixed "daily-snapshots") = "daily-snapshots".
Proof. reflexivity. Qed.

Example snapshot_tier_of_limit :
  snapshot_tier_of "weekly-snapshot-limit" = Some "weekly".
Proof. reflexivity. Qed.

Example format_received_default :
  format_backup_properties
    [("replicate", ("daily", "local"));
     ("daily-snapshots", ("7", "received"));
     ("replica", ("a,b", "local"));
     ("weekly-snapshots", ("4", "local"))]
  = "daily-snapshot-limit=7 weekly-snapshots=4 replica=a,b replicate=daily".
Proof. reflexivity. Qed.

Example decision_local_count :
  snapshot_decision "daily" "tank/home"
    [("daily-snapshots", ("7", "local"))] w0
  = (inr (true, Some 7%Z), w0).
Proof. reflexivity. Qed.

Example decision_received_count_with_limit :
  snapshot_decision "daily" "tank/home"
    [("daily-snapshots", ("7", "received"));
     ("daily-snapshot-limit", ("3", "received"))] w0
  = (inr (false, Some 3%Z), w0).
Proof. reflexivity. Qed.

(** ** Strings and dictionaries *)

Lemma append_assoc (a b c : string) :
  ((a ++ b) ++ c = a ++ (b ++ c))%string.
Proof.
  induction a as [|x a IH]; simpl; [reflexivity | now rewrite IH].
Qed.

Lemma mentions_append_r (a b part : string) :
  mentions b part -> mentions (a ++ b)%string part.
Proof.
  intros (x & y & ->). exists (a ++ x)%string, y. now rewrite append_assoc.
Qed.

Lemma mentions_append_l (a b part : string) :
  mentions a part -> mentions (a ++ b)%string part.
Proof.
  intros (x & y & ->). exists x, (y ++ b)%string. now rewrite !append_assoc.
Qed.

Lemma mentions_here (part after : string) :
  mentions (part ++ after)%string part.
Proof. now exists EmptyString, after. Qed.

Lemma int_none : Py.int "none" = None.
Proof. reflexivity. Qed.

Lemma int_some_not_none (v : string) (n : Z) :
  Py.int v = Some n -> String.eqb v "none" = false.
Proof.
  intros H. destruct (String.eqb_spec v "none") as [->|]; [|reflexivity].
  rewrite int_none in H. discriminate.
Qed.

Lemma dict_get_set {V : Type} (d : dict V) (k k' : string) (v : V) :
  dict_get (dict_set d k v) k' =
  if String.eqb k k' then Some v else dict_get d k'.
Proof.
  induction d as [|[k0 v0] d IH]; simpl.
  - reflexivity.
  - destruct (String.eqb_spec k0 k) as [->|Hk]; simpl.
    + destruct (String.eqb k k'); reflexivity.
    + rewrite IH. destruct (String.eqb_spec k0 k') as [->|]; [|reflexivity].
      destruct (String.eqb_spec k k'); [congruence | reflexivity].
Qed.

Lemma dict_get_In {V : Type} (d : dict V) (k : string) (v : V) :
  dict_get d k = Some v -> In (k, v) d.
Proof.
  induction d as [|[k0 v0] d IH]; simpl; [discriminate|].
  destruct (String.eqb_spec k0 k) as [->|]; intros H.
  - injection H as ->. now left.
  - right. now apply IH.
Qed.

(** ** Reading one property *)

(** What [property_int_value_or_none] returns and reports, by cases on the
    entry. *)
Lemma property_int_value_or_none_run (filesystem : string)
  (properties : property_set) (property_name : string) (w : world) :
  property_int_value_or_none filesystem properties property_name w =
  match dict_get properties property_name with
  | None => (inr (None, None), w)
  | Some (value_s, source) =>
      if String.eqb value_s "none" then (inr (None, None), w)
      else match Py.int value_s with
           | Some value => (inr (Some value, Some source), w)
           | None =>
               (inr (None, Some source),
                World (trace w ++ [Stderr (badly_formed property_name
                                             (value_s, source) filesystem)])
                      (pending w))
           end
  end.
Proof.
  unfold property_int_value_or_none, property_has_value.
  destruct (dict_get properties property_name) as [[value_s source]|];
    [|reflexivity].
  destruct (String.eqb value_s "none"); [reflexivity|]. simpl.
  destruct (Py.int value_s); reflexivity.
Qed.

(** It never raises, leaves the pending child processes alone and only
    adds to what was reported. *)
Lemma property_int_value_or_none_total (filesystem : string)
  (properties : property_set) (property_name : string) (w : world) :
  exists r evs,
    property_int_value_or_none filesystem properties property_name w =
    (inr r, World (trace w ++ evs) (pending w)).
Proof.
  rewrite property_int_value_or_none_run.
  assert (Hw : w = World (trace w ++ []) (pending w))
    by (destruct w; simpl; now rewrite app_nil_r).
  destruct (dict_get properties property_name) as [[value_s source]|].
  - destruct (String.eqb value_s "none").
    + exists (None, None), []. now rewrite <- Hw.
    + destruct (Py.int value_s) as [value|].
      * exists (Some value, Some source), []. now rewrite <- Hw.
      * eexists _, _. reflexivity.
  - exists (None, None), []. now rewrite <- Hw.
Qed.

(** ** The snapshot decision *)

Lemma snapshot_decision_run (tier filesystem : string)
  (properties : property_set) (w : world) :
  snapshot_decision tier filesystem properties w =
  match property_int_value_or_none filesystem properties
          (snapshots_property tier) w with
  | (inl e, w1) => (inl e, w1)
  | (inr (snapshots, snapshots_source), w1) =>
      match property_int_value_or_none filesystem properties
              (snapshot_limit_property tier) w1 with
      | (inl e, w2) => (inl e, w2)
      | (inr (snapshot_limit, _), w2) =>
          (inr (match snapshots, snapshots_source with
                | Some _, Some source => String.eqb source "local"
                | _, _ => false
                end,
                match snapshot_limit with
                | Some limit => Some limit
                | None => snapshots
                end), w2)
      end
  end.
Proof.
  unfold snapshot_decision, bind.
  destruct (property_int_value_or_none filesystem properties
              (snapshots_property tier) w) as [[e|[snapshots src]] w1];
    [reflexivity|].
  destruct (property_int_value_or_none filesystem properties
              (snapshot_limit_property tier) w1) as [[e|[limit lsrc]] w2];
    [reflexivity|].
  unfold ret. repeat f_equal.
  destruct snapshots, src; try reflexivity.
  destruct (String.eqb s "local"); reflexivity.
Qed.

(** The decision is always reached: no value of a property raises. *)
Lemma snapshot_decision_total (tier filesystem : string)
  (properties : property_set) (w : world) :
  exists take_snapshot snapshots evs,
    snapshot_decision tier filesystem properties w =
    (inr (take_snapshot, snapshots), World (trace w ++ evs) (pending w)).
Proof.
  rewrite snapshot_decision_run.
  destruct (property_int_value_or_none_total filesystem properties
              (snapshots_property tier) w) as ([s src] & evs1 & ->).
  destruct (property_int_value_or_none_total filesystem properties
              (snapshot_limit_property tier)
              (World (trace w ++ evs1) (pending w)))
    as ([l lsrc] & evs2 & ->).
  simpl. rewrite <- app_assoc. eexists _, _, _. reflexivity.
Qed.

(** The decision in closed form. *)
Lemma snapshot_decision_values (tier filesystem : string)
  (properties : property_set) (w : world) :
  exists evs,
    snapshot_decision tier filesystem properties w =
    (inr (match dict_get properties (snapshots_property tier) with
          | Some (value_s, source) =>
              match parsed_value properties (snapshots_property tier) with
              | Some _ => String.eqb source "local"
              | None => false
              end
          | None => false
          end,
          match parsed_value properties (snapshot_limit_property tier) with
          | Some limit => Some limit
          | None => parsed_value properties (snapshots_property tier)
          end),
     World (trace w ++ evs) (pending w)).
Proof.
  destruct (snapshot_decision_total tier filesystem properties w)
    as (t & s & evs & H).
  exists evs. rewrite H. revert H.
  rewrite snapshot_decision_run.
  rewrite (property_int_value_or_none_run _ _ (snapshots_property tier)).
  unfold parsed_value.
  destruct (dict_get properties (snapshots_property tier)) as [[v1 s1]|];
    [destruct (String.eqb v1 "none"); [|destruct (Py.int v1)]|];
    rewrite property_int_value_or_none_run;
    (destruct (dict_get properties (snapshot_limit_property tier))
       as [[v2 s2]|];
     [destruct (String.eqb v2 "none"); [|destruct (Py.int v2)]|]);
    intros H; inversion H; subst; reflexivity.
Qed.

(** C1. In every tier and for every property set the decision is reached,
    and it takes a snapshot exactly when [<tier>-snapshots] is there with a
    value that parses as an integer and with source [local]. When
    [<tier>-snapshots] is there with source [received] and
    [<tier>-snapshot-limit] is not there, no snapshot is taken and the
    number to keep is the parsed snapshots value. *)
Theorem take_snapshot_iff_local_integer (tier filesystem : string)
  (properties : property_set) (w : world) :
  exists take_snapshot snapshots w',
    snapshot_decision tier filesystem properties w
    = (inr (take_snapshot, snapshots), w')
    /\ (take_snapshot = true <->
        exists value_s value,
          dict_get properties (snapshots_property tier)
          = Some (value_s, "local")
          /\ Py.int value_s = Some value)
    /\ (forall value_s,
          dict_get properties (snapshots_property tier)
          = Some (value_s, "received") ->
          dict_get properties (snapshot_limit_property tier) = None ->
          take_snapshot = false /\ snapshots = Py.int value_s).
Proof.
  destruct (snapshot_decision_values tier filesystem properties w)
    as (evs & H).
  eexists _, _, _. split; [exact H|]. clear H. unfold parsed_value. split.
  - destruct (dict_get properties (snapshots_property tier)) as [[v s]|].
    + destruct (String.eqb_spec v "none") as [->|Hv].
      * split; [discriminate|]. intros (v' & n & Hg & Hi).
        injection Hg as <-. discriminate.
      * destruct (Py.int v) as [n|] eqn:Hi.
        -- split.
           ++ intros Hs. apply String.eqb_eq in Hs. subst s. now exists v, n.
           ++ intros (v' & n' & Hg & _). injection Hg as _ ->. reflexivity.
        -- split; [discriminate|]. intros (v' & n' & Hg & Hi').
           injection Hg as -> _. congruence.
    + split; [discriminate|]. intros (v' & n' & Hg & _). discriminate.
  - intros v Hs Hl. rewrite Hs, Hl.
    destruct (String.eqb_spec v "none") as [->|Hv].
    + now split.
    + destruct (Py.int v); now split.
Qed.

(** C2. When [<tier>-snapshots] and [<tier>-snapshot-limit] are both there
    with values that parse as integers, the number to keep is the
    snapshot-limit value, whatever the source of the limit and whether or
    not a snapshot is taken; with source [local] on the snapshots property
    the snapshot is taken. Nothing is reported. *)
Theorem snapshot_limit_overrides_snapshots (tier filesystem : string)
  (properties : property_set) (w : world)
  (snapshots_s snapshots_source limit_s limit_source : string)
  (count limit : Z) :
  dict_get properties (snapshots_property tier)
  = Some (snapshots_s, snapshots_source) ->
  Py.int snapshots_s = Some count ->
  dict_get properties (snapshot_limit_property tier)
  = Some (limit_s, limit_source) ->
  Py.int limit_s = Some limit ->
  snapshot_decision tier filesystem properties w
  = (inr (String.eqb snapshots_source "local", Some limit), w).
Proof.
  intros Hs Hc Hl Hn.
  rewrite snapshot_decision_run, property_int_value_or_none_run.
  rewrite Hs, (int_some_not_none _ _ Hc), Hc. cbv iota beta.
  rewrite property_int_value_or_none_run.
  rewrite Hl, (int_some_not_none _ _ Hn), Hn. reflexivity.
Qed.

Lemma snapshot_limit_overrides_snapshots_witness :
  snapshot_decision "daily" "tank/home"
    [("daily-snapshots", ("7", "local"));
     ("daily-snapshot-limit", ("3", "received"))] w0
  = (inr (true, Some 3%Z), w0).
Proof.
  apply (snapshot_limit_overrides_snapshots "daily" "tank/home" _ w0
           "7" "local" "3" "received" 7 3); reflexivity.
Defined.

(** ** Values that are not integers *)

(** C10. A property whose value is [none] has no value for the decision:
    read as a count it gives no count and no report, and as [replicate] or
    [replica] it leaves no destination, so that the replication step does
    nothing. *)
Theorem none_is_no_value (tier filesystem property_name source : string)
  (properties : property_set) (options : options) (w : world) :
  dict_get properties property_name = Some ("none", source) ->
  property_has_value properties property_name = false
  /\ property_int_value_or_none filesystem properties property_name w
     = (inr (None, None), w)
  /\ (property_name = REPLICATE_PROPERTY \/ property_name = REPLICA_PROPERTY ->
      replica_targets tier properties = []
      /\ replicate_if_requested tier filesystem properties options w
         = (inr tt, w)).
Proof.
  intros Hg.
  assert (Hv : property_has_value properties property_name = false)
    by (unfold property_has_value; now rewrite Hg).
  split; [exact Hv|]. split.
  - rewrite property_int_value_or_none_run, Hg. reflexivity.
  - intros Hn.
    assert (Hr : replicate_requested tier properties = false).
    { unfold replicate_requested. destruct Hn as [<-| <-]; rewrite Hv.
      - reflexivity.
      - apply andb_false_r. }
    unfold replica_targets, replicate_if_requested. rewrite Hr. now split.
Qed.

Lemma none_is_no_value_witness :
  let properties :=
    [("replicate", ("daily", "local")); ("replica", ("none", "local"))] in
  let options := Options None "auto-" false None false None None in
  property_has_value properties "replica" = false
  /\ property_int_value_or_none "tank/home" properties "replica" w0
     = (inr (None, None), w0)
  /\ ("replica" = REPLICATE_PROPERTY \/ "replica" = REPLICA_PROPERTY ->
      replica_targets "daily" properties = []
      /\ replicate_if_requested "daily" "tank/home" properties options w0
         = (inr tt, w0)).
Proof.
  intros properties options.
  apply (none_is_no_value "daily" "tank/home" "replica" "local"
           properties options w0).
  reflexivity.
Defined.

(** C7, as stated, fails: [none] does not parse as an integer, and the
    decision for [daily-snapshots=none] reports nothing. *)
Lemma none_count_is_not_reported :
  Py.int "none" = None
  /\ snapshot_decision "daily" "tank/home"
       [("daily-snapshots", ("none", "local"))] w0
     = (inr (false, None), w0).
Proof. split; reflexivity. Qed.

(** C7, amended. When the [<tier>-snapshots] or [<tier>-snapshot-limit]
    value is not [none] and does not parse as an integer, reading the
    property does not raise: it returns no count and reports one message,
    in which the filesystem, the property name and the tier occur. The
    decision is reached all the same, with the message among its reports. *)
Theorem badly_formed_count_is_reported
  (tier filesystem property_name value_s source : string)
  (properties : property_set) (w : world) :
  property_name = snapshots_property tier
  \/ property_name = snapshot_limit_property tier ->
  dict_get properties property_name = Some (value_s, source) ->
  value_s <> "none" ->
  Py.int value_s = None ->
  let msg := badly_formed property_name (value_s, source) filesystem in
  property_int_value_or_none filesystem properties property_name w
  = (inr (None, Some source), World (trace w ++ [Stderr msg]) (pending w))
  /\ (mentions msg filesystem /\ mentions msg property_name
      /\ mentions msg tier)
  /\ exists take_snapshot snapshots w',
      snapshot_decision tier filesystem properties w
      = (inr (take_snapshot, snapshots), w')
      /\ In (Stderr msg) (trace w') /\ pending w' = pending w.
Proof.
  intros Hname Hg Hv Hi msg.
  apply String.eqb_neq in Hv.
  assert (Hrun : forall w1,
             property_int_value_or_none filesystem properties property_name w1
             = (inr (None, Some source),
                World (trace w1 ++ [Stderr msg]) (pending w1))).
  { intros w1. rewrite property_int_value_or_none_run, Hg, Hv, Hi.
    reflexivity. }
  split; [apply Hrun|]. split.
  - unfold msg, badly_formed. repeat split.
    + do 5 apply mentions_append_r. apply mentions_here.
    + apply mentions_append_r. apply mentions_here.
    + apply mentions_append_r. apply mentions_append_l.
      destruct Hname as [-> | ->]; apply mentions_here.
  - rewrite snapshot_decision_run. destruct Hname as [-> | ->].
    + rewrite Hrun.
      destruct (property_int_value_or_none_total filesystem properties
                  (snapshot_limit_property tier)
                  (World (trace w ++ [Stderr msg]) (pending w)))
        as ([l lsrc] & evs & ->).
      eexists _, _, _. split; [reflexivity|]. simpl. split; [|reflexivity].
      apply in_or_app. left. apply in_or_app. right. now left.
    + destruct (property_int_value_or_none_total filesystem properties
                  (snapshots_property tier) w) as ([s ssrc] & evs & ->).
      rewrite Hrun.
      eexists _, _, _. split; [reflexivity|]. simpl. split; [|reflexivity].
      apply in_or_app. right. now left.
Qed.

Lemma badly_formed_count_is_reported_witness :
  property_int_value_or_none "tank/home"
    [("daily-snapshots", ("seven", "local"))] "daily-snapshots" w0
  = (inr (None, Some "local"),
     World [Stderr "badly formed daily-snapshots=('seven', 'local') property for tank/home (should be integer)"] []).
Proof.
  apply (badly_formed_count_is_reported "daily" "tank/home" "daily-snapshots"
           "seven" "local" [("daily-snapshots", ("seven", "local"))] w0).
  - left. reflexivity.
  - reflexivity.
  - discriminate.
  - reflexivity.
Defined.

(** ** Replication *)

Lemma split_not_nil (sep : ascii) (s : string) : Py.split sep s <> [].
Proof.
  destruct s as [|c s]; simpl; [discriminate|].
  destruct (Ascii.eqb c sep); [discriminate|].
  destruct (Py.split sep s); discriminate.
Qed.

Lemma for_each_map_const {A : Type} (l : list A) (d : string)
  (body : string -> M unit) :
  for_each (map (fun _ => d) l) body = for_each l (fun _ => body d).
Proof.
  induction l as [|x l IH]; simpl; [reflexivity | now rewrite IH].
Qed.

(** [replica_targets] is what the replication step goes through. *)
Lemma replicate_if_requested_targets (tier filesystem : string)
  (properties : property_set) (options : options) :
  replicate_if_requested tier filesystem properties options =
  for_each (replica_targets tier properties)
           (fun destination => replicate filesystem destination options).
Proof.
  unfold replicate_if_requested, replica_targets.
  destruct (replicate_requested tier properties); [|reflexivity].
  destruct (dict_get properties REPLICA_PROPERTY) as [[replica src]|];
    [|reflexivity].
  destruct (String.eqb src "local"); [|reflexivity].
  now rewrite for_each_map_const.
Qed.

(** C3: the code at [replica=a,b]. The value has two tokens, and both calls
    of [replicate] get the whole value as the destination: the loop variable
    of line 198 is not used in line 199. *)
Theorem replica_tokens_not_used :
  let properties :=
    [("replicate", ("daily", "local")); ("replica", ("a,b", "local"))] in
  let options := Options None "auto-" false None false None None in
  Py.split "," "a,b" = ["a"; "b"]
  /\ replica_targets "daily" properties = ["a,b"; "a,b"]
  /\ backup_or_reap_snapshots "daily" "tank/home" properties options w0
     = (inr tt,
        World
          [VerboseStderr
             "========== zreplicate --create-destination --no-replication-stream tank/home a,b ==========";
           Exec ["zreplicate"; "--create-destination";
                 "--no-replication-stream"; "tank/home"; "a,b"] 0;
           VerboseStderr
             "========== zreplicate --create-destination --no-replication-stream tank/home a,b ==========";
           Exec ["zreplicate"; "--create-destination";
                 "--no-replication-stream"; "tank/home"; "a,b"] 0]
          []).
Proof. repeat split. Qed.

(** C4, as stated, fails: [replicate] and [replica] both have a value and
    the source [local], and nothing is replicated in the tier [daily],
    because the value of [replicate] is another tier. *)
Lemma replicate_of_other_tier_not_replicated :
  let properties :=
    [("replicate", ("weekly", "local"));
     ("replica", ("backup-host/pool", "local"))] in
  let options := Options None "auto-" false None false None None in
  (property_has_value properties REPLICATE_PROPERTY = true
   /\ dict_get properties REPLICATE_PROPERTY = Some ("weekly", "local"))
  /\ (property_has_value properties REPLICA_PROPERTY = true
      /\ dict_get properties REPLICA_PROPERTY
         = Some ("backup-host/pool", "local"))
  /\ replica_targets "daily" properties = []
  /\ backup_or_reap_snapshots "daily" "tank/home" properties options w0
     = (inr tt, w0).
Proof. repeat split. Qed.

(** C4, amended. [replicate] is called in a tier exactly when the
    [replicate] property has the tier as its value, which is not [none],
    with source [local], and the [replica] property has a value other than
    [none] with source [local]. A [replicate] property with source
    [received] never leads to a call. *)
Theorem replication_iff_local_and_tier (tier : string)
  (properties : property_set) :
  (replica_targets tier properties <> [] <->
   tier <> "none"
   /\ dict_get properties REPLICATE_PROPERTY = Some (tier, "local")
   /\ exists replica,
       dict_get properties REPLICA_PROPERTY = Some (replica, "local")
       /\ replica <> "none")
  /\ (forall value,
        dict_get properties REPLICATE_PROPERTY = Some (value, "received") ->
        replica_targets tier properties = []).
Proof.
  unfold replica_targets, replicate_requested, property_has_value.
  split.
  - destruct (dict_get properties REPLICATE_PROPERTY) as [[v s]|].
    + destruct (String.eqb_spec v "none") as [->|Hv]; simpl.
      * split; [congruence|]. intros (Ht & Hg & _). congruence.
      * destruct (String.eqb_spec v tier) as [->|Ht]; simpl.
        -- destruct (String.eqb_spec s "local") as [->|Hs]; simpl.
           ++ destruct (dict_get properties REPLICA_PROPERTY) as [[r rs]|].
              ** destruct (String.eqb_spec r "none") as [->|Hr]; simpl.
                 --- split; [congruence|].
                     intros (_ & _ & r & Hg & Hr). congruence.
                 --- destruct (String.eqb_spec rs "local") as [->|Hrs].
                     +++ split.
                         *** intros _. split; [exact Hv|].
                             split; [reflexivity|]. now exists r.
                         *** intros _ Hm. apply map_eq_nil in Hm.
                             now apply split_not_nil in Hm.
                     +++ split; [congruence|].
                         intros (_ & _ & r' & Hg & _). congruence.
              ** split; [congruence|]. intros (_ & _ & r & Hg & _).
                 discriminate.
           ++ split; [congruence|]. intros (_ & Hg & _). congruence.
        -- split; [congruence|]. intros (_ & Hg & _). congruence.
    + simpl. split; [congruence|]. intros (_ & Hg & _). discriminate.
  - intros value ->.
    destruct (String.eqb value "none"), (String.eqb value tier); reflexivity.
Qed.

(** ** The property reader *)

Lemma Forall_dict_set {V : Type} (P : V -> Prop) (d : dict V) (k : string)
  (v : V) :
  Forall (fun e => P (snd e)) d -> P v ->
  Forall (fun e => P (snd e)) (dict_set d k v).
Proof.
  intros Hd Hv. induction Hd as [|[k0 v0] d H0 Hd IH]; simpl.
  - now constructor.
  - destruct (String.eqb k0 k); constructor; assumption.
Qed.

Lemma Forall_dict_get {V : Type} (P : V -> Prop) (d : dict V) (k : string)
  (v : V) :
  Forall (fun e => P (snd e)) d -> dict_get d k = Some v -> P v.
Proof.
  intros Hd Hg. apply dict_get_In in Hg.
  rewrite Forall_forall in Hd. exact (Hd _ Hg).
Qed.

(** One line keeps the invariant. *)
Lemma read_line_all_kept (properties properties' : dict property_set)
  (line : string) (w w' : world) :
  all_kept properties ->
  read_line properties line w = (inr properties', w') ->
  all_kept properties'.
Proof.
  intros Hinv. unfold read_line.
  destruct (Py.split "009" (Py.rstrip_nl line))
    as [|name [|prop [|value [|source [|]]]]]; try discriminate.
  set (source' := if Py.startswith source "inherited" then "inherited"
                  else source).
  destruct (is_zprefixed prop); [|intros H; injection H as <- _; exact Hinv].
  destruct (String.eqb_spec source' "local") as [Hl|Hl];
    [|destruct (String.eqb_spec source' "received") as [Hr|Hr]]; simpl;
    try (intros H; injection H as <- _; exact Hinv).
  all: set (properties1 := if negb (dict_mem properties name)
                           then dict_set properties name []
                           else properties).
  all: assert (H1 : all_kept properties1)
    by (unfold properties1; destruct (negb (dict_mem properties name));
        [apply (Forall_dict_set (fun ps => Forall (fun e => kept (snd e)) ps));
         [exact Hinv | constructor] | exact Hinv]).
  all: destruct (String.eqb_spec value "-") as [Hv|Hv]; simpl;
    [intros H; injection H as <- _; exact H1|].
  all: unfold bind, verbose_stderr, emit, ret; intros H; injection H as <- _.
  all: apply (Forall_dict_set (fun ps => Forall (fun e => kept (snd e)) ps));
    [exact H1|].
  all: apply (Forall_dict_set kept);
    [|split; simpl; [exact Hv | auto]].
  all: destruct (dict_get properties1 name) as [inner|] eqn:Hg;
    [|constructor].
  all: exact (Forall_dict_get
                (fun ps => Forall (fun e => kept (snd e)) ps) _ _ _ H1 Hg).
Qed.

Lemma read_lines_all_kept (lines : list string)
  (properties properties' : dict property_set) (w w' : world) :
  all_kept properties ->
  read_lines properties lines w = (inr properties', w') ->
  all_kept properties'.
Proof.
  revert properties w. induction lines as [|line lines IH];
    intros properties w Hinv; simpl.
  - unfold ret. intros H. injection H as <- _. exact Hinv.
  - unfold bind.
    destruct (read_line properties line w) as [[e|properties1] w1] eqn:H1;
      [discriminate|].
    apply (IH properties1 w1).
    exact (read_line_all_kept _ _ _ _ _ Hinv H1).
Qed.

(** What the reader returns has kept entries only. *)
Lemma get_backup_properties_all_kept
  (zfs_get : list string -> list string * Z) (zpool : string)
  (tier : option string) (w w' : world) (properties : dict property_set) :
  get_backup_properties zfs_get zpool tier w = (inr properties, w') ->
  all_kept properties.
Proof.
  unfold get_backup_properties.
  destruct (zfs_get _) as [stdout retcode]. unfold bind.
  destruct (read_lines [] stdout w) as [[e|properties1] w1] eqn:H1;
    [discriminate|].
  destruct (negb (retcode =? 0)%Z); [discriminate|].
  unfold ret. intros H. injection H as <- _.
  apply (read_lines_all_kept _ _ _ _ _ (Forall_nil _) H1).
Qed.

Lemma all_kept_entry (properties : dict property_set)
  (filesystem name value source : string) (entries : property_set) :
  all_kept properties ->
  In (filesystem, entries) properties ->
  In (name, (value, source)) entries ->
  kept (value, source).
Proof.
  intros Hinv Hfs Hin. unfold all_kept in Hinv.
  rewrite Forall_forall in Hinv. specialize (Hinv _ Hfs). simpl in Hinv.
  rewrite Forall_forall in Hinv. exact (Hinv _ Hin).
Qed.

(** C6. No property set that the reader returns, for one tier or for all
    tiers, has an entry whose value is the unset mark [-]. *)
Theorem unset_never_read
  (zfs_get : list string -> list string * Z) (zpool : string)
  (tier : option string) (w w' : world) (properties : dict property_set)
  (filesystem name value source : string) (entries : property_set) :
  get_backup_properties zfs_get zpool tier w = (inr properties, w') ->
  In (filesystem, entries) properties ->
  In (name, (value, source)) entries ->
  value <> "-".
Proof.
  intros Hrun Hfs Hin.
  apply get_backup_properties_all_kept in Hrun.
  exact (proj1 (all_kept_entry _ _ _ _ _ _ Hrun Hfs Hin)).
Qed.

Lemma unset_never_read_witness : "7" <> "-".
Proof.
  apply (unset_never_read zfs_get_tank "tank" (Some "daily") w0
           (World [VerboseStderr "tank/home daily-snapshots=7 local"] [])
           [("tank/home", [("daily-snapshots", ("7", "local"))])]
           "tank/home" "daily-snapshots" "7" "local"
           [("daily-snapshots", ("7", "local"))]).
  - reflexivity.
  - left. reflexivity.
  - left. reflexivity.
Defined.

(** C5, as stated, fails: the query for all tiers has no view with the
    inherited entries. [daily-snapshot-limit], inherited from the pool, is
    not in what the reader returns for the formatter. *)
Lemma inherited_not_read_for_all_tiers :
  get_backup_properties zfs_get_tank "tank" None w0
  = (inr [("tank/home", [("daily-snapshots", ("7", "local"))])],
     World [VerboseStderr "tank/home daily-snapshots=7 local"] []).
Proof. reflexivity. Qed.

(** C5, amended. For one tier and for all tiers alike, every entry that the
    reader returns has the source [local] or [received]: an inherited
    entry, whatever it is inherited from, is never returned, and so never
    reaches the formatter. *)
Theorem only_local_and_received_read
  (zfs_get : list string -> list string * Z) (zpool : string)
  (tier : option string) (w w' : world) (properties : dict property_set)
  (filesystem name value source : string) (entries : property_set) :
  get_backup_properties zfs_get zpool tier w = (inr properties, w') ->
  In (filesystem, entries) properties ->
  In (name, (value, source)) entries ->
  (source = "local" \/ source = "received")
  /\ Py.startswith source "inherited" = false.
Proof.
  intros Hrun Hfs Hin.
  apply get_backup_properties_all_kept in Hrun.
  destruct (all_kept_entry _ _ _ _ _ _ Hrun Hfs Hin) as [_ Hs].
  simpl in Hs. split; [exact Hs|]. destruct Hs as [-> | ->]; reflexivity.
Qed.

Lemma only_local_and_received_read_witness :
  ("local" = "local" \/ "local" = "received")
  /\ Py.startswith "local" "inherited" = false.
Proof.
  apply (only_local_and_received_read zfs_get_tank "tank" None w0
           (World [VerboseStderr "tank/home daily-snapshots=7 local"] [])
           [("tank/home", [("daily-snapshots", ("7", "local"))])]
           "tank/home" "daily-snapshots" "7" "local"
           [("daily-snapshots", ("7", "local"))]).
  - reflexivity.
  - left. reflexivity.
  - left. reflexivity.
Defined.

(** ** Deleting other tiers before replicating *)

Lemma snapshot_run (tier filesystem : string) (take_snapshot : bool)
  (keep : Z) (options : options) (w : world) :
  snapshot tier filesystem take_snapshot keep options w =
  let cmd := zsnap_command tier filesystem take_snapshot keep options in
  let status := hd 0%Z (pending w) in
  (if (status =? 0)%Z then inr tt else inl (CalledProcessError status cmd),
   World (trace w ++ [VerboseStderr (highlight (Py.join " " cmd));
                      Exec cmd status])
         (tl (pending w))).
Proof.
  unfold snapshot, bind, verbose_stderr, emit, check_call. simpl.
  rewrite <- app_assoc. simpl.
  destruct (hd 0%Z (pending w) =? 0)%Z; reflexivity.
Qed.

(** The loop of lines 127-128: it only runs [zsnap], and when it ends
    without an exception every tier has been pruned, in order, with
    status 0. *)
Lemma delete_tiers_loop (filesystem : string) (options : options)
  (tiers : list string) (w w' : world) (r : exn + unit) :
  for_each tiers (fun tier => snapshot tier filesystem false 0 options) w
  = (r, w') ->
  exists evs,
    trace w' = trace w ++ evs
    /\ (forall cmd status, In (Exec cmd status) evs ->
                           hd_error cmd = Some "zsnap")
    /\ (forall u, r = inr u ->
        execs evs =
        map (fun tier =>
               Exec (zsnap_command tier filesystem false 0 options) 0)
            tiers).
Proof.
  revert w. induction tiers as [|tier tiers IH]; intros w; simpl.
  - unfold ret. intros H. injection H as <- <-. exists [].
    rewrite app_nil_r. repeat split. intros ? ? [].
  - unfold bind. rewrite snapshot_run. cbv zeta.
    destruct (Z.eqb_spec (hd 0%Z (pending w)) 0) as [Hst|Hst].
    + intros H. apply IH in H. destruct H as (evs & Htr & Hz & Hex).
      simpl in Htr. rewrite <- app_assoc in Htr.
      eexists. split; [exact Htr|]. split.
      * intros cmd status [Hin|[Hin|Hin]]; [discriminate| |eauto].
        injection Hin as <- _. reflexivity.
      * intros u Hu. simpl. rewrite Hst. f_equal. eauto.
    + intros H. injection H as <- <-. simpl.
      eexists. split; [reflexivity|]. split.
      * intros cmd status [Hin|[Hin|[]]]; [discriminate|].
        injection Hin as <- _. reflexivity.
      * discriminate.
Qed.

Lemma app_split_at {A : Type} (P : A -> Prop) (l1 l2 pre post : list A)
  (x : A) :
  l1 ++ l2 = pre ++ x :: post ->
  P x ->
  (forall y, In y l1 -> ~ P y) ->
  exists mid, pre = l1 ++ mid /\ l2 = mid ++ x :: post.
Proof.
  revert pre. induction l1 as [|a l1 IH]; intros pre Heq Hx Hl1.
  - exists pre. split; [reflexivity | exact Heq].
  - destruct pre as [|b pre]; simpl in Heq; injection Heq as -> Heq.
    + exfalso. apply (Hl1 x); [now left | exact Hx].
    + destruct (IH pre Heq Hx) as (mid & -> & ->).
      * intros y Hy. apply Hl1. now right.
      * now exists mid.
Qed.

(** C9. When [replicate] is called with a delete-tiers option, every child
    process run before [zreplicate] is the prune of a named tier, with
    [--nosnapshot] and 0 snapshots to keep; all of them, in the order of
    the option, have ended with status 0 when [zreplicate] starts; and
    [zreplicate] is the last thing that [replicate] does. *)
Theorem prunes_before_replication (filesystem destination tiers : string)
  (options : options) (w w' : world) (r : exn + unit) :
  delete_tiers options = Some tiers ->
  replicate filesystem destination options w = (r, w') ->
  exists evs,
    trace w' = trace w ++ evs
    /\ forall pre cmd status post,
        evs = pre ++ Exec cmd status :: post ->
        hd_error cmd = Some "zreplicate" ->
        execs pre =
        map (fun tier =>
               Exec (zsnap_command tier filesystem false 0 options) 0)
            (Py.split "," tiers)
        /\ cmd = zreplicate_command filesystem destination options
        /\ post = [].
Proof.
  intros Hopt. unfold replicate, tiers_to_delete. rewrite Hopt.
  unfold bind at 1.
  destruct (for_each (Py.split "," tiers)
              (fun tier => snapshot tier filesystem false 0 options) w)
    as [[e|[]] w1] eqn:Hloop;
    destruct (delete_tiers_loop _ _ _ _ _ _ Hloop) as (evs & Htr & Hz & Hex).
  - intros H. injection H as <- <-. exists evs. split; [exact Htr|].
    intros pre cmd status post -> Hcmd. exfalso.
    assert (Hin : In (Exec cmd status) (pre ++ Exec cmd status :: post))
      by (apply in_or_app; right; now left).
    apply Hz in Hin. rewrite Hcmd in Hin. discriminate.
  - unfold bind, verbose_stderr, emit, check_call. simpl.
    set (zr := zreplicate_command filesystem destination options).
    set (st := hd 0%Z (pending w1)).
    intros H.
    exists (evs ++ [VerboseStderr (highlight (Py.join " " zr)); Exec zr st]).
    split.
    + assert (Hw : trace w' =
                   (trace w1 ++ [VerboseStderr (highlight (Py.join " " zr))])
                   ++ [Exec zr st])
        by (destruct (st =? 0)%Z; injection H as _ <-; reflexivity).
      rewrite Hw, Htr, <- !app_assoc. reflexivity.
    + intros pre cmd status post Heq Hcmd.
      destruct (app_split_at
                  (fun e => exists c s, e = Exec c s
                                        /\ hd_error c = Some "zreplicate")
                  _ _ _ _ _ Heq) as (mid & -> & Hmid).
      * now exists cmd, status.
      * intros y Hy (c & s & -> & Hc). apply Hz in Hy. congruence.
      * destruct mid as [|m1 [|m2 mid]].
        -- discriminate.
        -- injection Hmid as <- <- _ <-.
           unfold execs. rewrite filter_app. simpl. rewrite app_nil_r.
           split; [exact (Hex tt eq_refl)|]. now split.
        -- injection Hmid as _ _ Hmid. now destruct mid.
Qed.

Lemma prunes_before_replication_witness :
  let options := Options (Some "hourly,weekly") "auto-" false None false
                         None None in
  execs [VerboseStderr "========== zsnap -k 0 -p auto-hourly- --nosnapshot tank/home ==========";
         Exec ["zsnap"; "-k"; "0"; "-p"; "auto-hourly-"; "--nosnapshot";
               "tank/home"] 0;
         VerboseStderr "========== zsnap -k 0 -p auto-weekly- --nosnapshot tank/home ==========";
         Exec ["zsnap"; "-k"; "0"; "-p"; "auto-weekly-"; "--nosnapshot";
               "tank/home"] 0;
         VerboseStderr "========== zreplicate --create-destination --no-replication-stream tank/home backup/pool =========="]
  = map (fun tier => Exec (zsnap_command tier "tank/home" false 0 options) 0)
        ["hourly"; "weekly"]
  /\ ["zreplicate"; "--create-destination"; "--no-replication-stream";
      "tank/home"; "backup/pool"]
     = zreplicate_command "tank/home" "backup/pool" options
  /\ @nil event = [].
Proof.
  intros options.
  destruct (prunes_before_replication "tank/home" "backup/pool"
              "hourly,weekly" options w0
              (snd (replicate "tank/home" "backup/pool" options w0))
              (inr tt) eq_refl eq_refl) as (evs & Htr & H).
  simpl in Htr. subst evs.
  apply (H _ _ 0%Z []); reflexivity.
Defined.

(** ** The formatter *)

Lemma leb_trans (a b c : string) :
  String.leb a b = true -> String.leb b c = true -> String.leb a c = true.
Proof.
  revert b c. induction a as [|x a IH]; intros [|y b] [|z c];
    try reflexivity; try discriminate.
  unfold String.leb in *. simpl. unfold Ascii.compare.
  destruct (N.compare_spec (N_of_ascii x) (N_of_ascii y)) as [Hxy|Hxy|Hxy];
    destruct (N.compare_spec (N_of_ascii y) (N_of_ascii z)) as [Hyz|Hyz|Hyz];
    destruct (N.compare_spec (N_of_ascii x) (N_of_ascii z)) as [Hxz|Hxz|Hxz];
    try discriminate; try reflexivity; try lia.
  apply IH.
Qed.

Lemma insert_sorted_In (x y : string) (l : list string) :
  In y (insert_sorted x l) -> y = x \/ In y l.
Proof.
  induction l as [|z l IH]; simpl.
  - intros [<-|[]]. now left.
  - destruct (String.leb x z); simpl.
    + intros [<-|H]; [now left | now right].
    + intros [<-|H]; [right; now left|].
      destruct (IH H); [now left | right; now right].
Qed.

Lemma insert_sorted_sorted (x : string) (l : list string) :
  StronglySorted name_le l -> StronglySorted name_le (insert_sorted x l).
Proof.
  induction 1 as [|y l Hl IH Hy]; simpl.
  - repeat constructor.
  - destruct (String.leb x y) eqn:Hxy.
    + constructor; [now constructor|]. constructor; [exact Hxy|].
      rewrite Forall_forall in *. intros z Hz.
      exact (leb_trans _ _ _ Hxy (Hy z Hz)).
    + constructor; [exact IH|]. rewrite Forall_forall in *.
      intros z Hz. apply insert_sorted_In in Hz. destruct Hz as [->|Hz].
      * destruct (String.leb_total x y) as [H|H]; [congruence | exact H].
      * now apply Hy.
Qed.

Lemma sorted_sorted (l : list string) : StronglySorted name_le (sorted l).
Proof.
  induction l as [|x l IH]; simpl;
    [constructor | now apply insert_sorted_sorted].
Qed.

Lemma insert_sorted_perm (x : string) (l : list string) :
  Permutation (insert_sorted x l) (x :: l).
Proof.
  induction l as [|y l IH]; simpl; [reflexivity|].
  destruct (String.leb x y); [reflexivity|].
  rewrite IH. apply perm_swap.
Qed.

Lemma sorted_perm (l : list string) : Permutation (sorted l) l.
Proof.
  induction l as [|x l IH]; simpl; [reflexivity|].
  now rewrite insert_sorted_perm, IH.
Qed.

Lemma filter_sorted (p : string -> bool) (l : list string) :
  StronglySorted name_le l -> StronglySorted name_le (filter p l).
Proof.
  induction 1 as [|x l Hl IH Hx]; simpl; [constructor|].
  destruct (p x); [|exact IH].
  constructor; [exact IH|]. rewrite Forall_forall in *.
  intros y Hy. apply filter_In in Hy. now apply Hx.
Qed.

Lemma filter_split_perm {A : Type} (p : A -> bool) (l : list A) :
  Permutation (filter (fun x => negb (p x)) l ++ filter p l) l.
Proof.
  induction l as [|x l IH]; simpl; [reflexivity|].
  destruct (p x); simpl.
  - rewrite <- Permutation_middle. now constructor.
  - now constructor.
Qed.

(** The names that are formatted are the keys of [local_and_defaults], each
    as often as it is a key. *)
Lemma format_names_perm (local_and_defaults : property_set) :
  Permutation (format_names local_and_defaults)
              (dict_keys local_and_defaults).
Proof.
  unfold format_names. rewrite filter_split_perm. apply sorted_perm.
Qed.

Lemma map_sorted (f : string -> string * string) (l : list string) :
  (forall name, fst (f name) = name) ->
  StronglySorted name_le l ->
  StronglySorted (fun a b => name_le (fst a) (fst b)) (map f l).
Proof.
  intros Hf. induction 1 as [|x l Hl IH Hx]; simpl; constructor;
    [exact IH|].
  rewrite Forall_forall in *. intros t Ht. apply in_map_iff in Ht.
  destruct Ht as (y & <- & Hy). rewrite !Hf. now apply Hx.
Qed.

(** C8. For every property set the formatted tokens fall into two runs:
    first the tokens whose name is neither [replica] nor [replicate], in
    the lexical order of their names, then the tokens named [replica] and
    [replicate], in this order. The output is these tokens joined by
    spaces. *)
Theorem replication_tokens_last (properties : property_set) :
  exists others replication : list (string * string),
    format_tokens properties = others ++ replication
    /\ Forall (fun t => fst t <> REPLICA_PROPERTY
                        /\ fst t <> REPLICATE_PROPERTY) others
    /\ StronglySorted (fun a b => name_le (fst a) (fst b)) others
    /\ Forall (fun t => fst t = REPLICA_PROPERTY
                        \/ fst t = REPLICATE_PROPERTY) replication
    /\ StronglySorted (fun a b => name_le (fst a) (fst b)) replication
    /\ format_backup_properties properties
       = Py.join " " (map snd others ++ map snd replication).
Proof.
  unfold format_backup_properties, format_tokens.
  destruct (split_by_source properties) as [local_and_defaults non_local].
  set (eff := fill_defaults local_and_defaults non_local).
  set (f := fun name => (name, format_token eff name)).
  set (names := sorted (dict_keys eff)).
  exists (map f (filter (fun name => negb (is_replication_name name)) names)),
    (map f (filter is_replication_name names)).
  assert (Hs : StronglySorted name_le names) by apply sorted_sorted.
  split; [unfold format_names; apply map_app|].
  split.
  { rewrite Forall_forall. intros t Ht. apply in_map_iff in Ht.
    destruct Ht as (name & <- & Hn). apply filter_In in Hn.
    destruct Hn as [_ Hn]. unfold is_replication_name in Hn. simpl.
    apply negb_true_iff, orb_false_iff in Hn. destruct Hn as [H1 H2].
    now apply String.eqb_neq in H1, H2. }
  split; [apply map_sorted; [reflexivity | now apply filter_sorted]|].
  split.
  { rewrite Forall_forall. intros t Ht. apply in_map_iff in Ht.
    destruct Ht as (name & <- & Hn). apply filter_In in Hn.
    destruct Hn as [_ Hn]. unfold is_replication_name in Hn. simpl.
    apply orb_true_iff in Hn. destruct Hn as [H|H];
      apply String.eqb_eq in H; auto. }
  split; [apply map_sorted; [reflexivity | now apply filter_sorted]|].
  unfold format_names. now rewrite <- map_app, <- map_app.
Qed.

(** * Further properties of the code *)

(** ** Property names *)

Lemma length_append (a b : string) :
  String.length (a ++ b) = String.length a + String.length b.
Proof.
  induction a as [|x a IH]; simpl; [reflexivity | now rewrite IH].
Qed.

Lemma drop_append (a b : string) (n : nat) :
  Py.drop (String.length a + n) (a ++ b) = Py.drop n b.
Proof.
  induction a as [|x a IH]; simpl; [reflexivity | exact IH].
Qed.

Lemma take_append (a b : string) : Py.take (String.length a) (a ++ b) = a.
Proof.
  induction a as [|x a IH]; simpl; [now destruct b | now rewrite IH].
Qed.

Lemma drop_all (a : string) : Py.drop 0 a = a.
Proof. reflexivity. Qed.

Lemma endswith_append (a suffix : string) :
  Py.endswith (a ++ suffix) suffix = true.
Proof.
  unfold Py.endswith. rewrite length_append.
  replace (String.length a + String.length suffix - String.length suffix)
    with (String.length a + 0) by lia.
  rewrite drop_append, drop_all, String.eqb_refl, andb_true_r.
  apply Nat.leb_le. lia.
Qed.

Lemma drop_last_append (a suffix : string) :
  Py.drop_last (String.length suffix) (a ++ suffix) = a.
Proof.
  unfold Py.drop_last. rewrite length_append.
  replace (String.length a + String.length suffix - String.length suffix)
    with (String.length a) by lia.
  apply take_append.
Qed.

Lemma limit_name_is_no_snapshots_name (tier : string) :
  Py.endswith (snapshot_limit_property tier) SNAPSHOTS_PROPERTY_SUFFIX = false.
Proof.
  unfold Py.endswith, snapshot_limit_property. rewrite length_append.
  replace (String.length tier + String.length SNAPSHOT_LIMIT_PROPERTY_SUFFIX
           - String.length SNAPSHOTS_PROPERTY_SUFFIX)
    with (String.length tier + 5) by (simpl; lia).
  rewrite drop_append. simpl. apply andb_false_r.
Qed.

(** X1. The module prefix is recognised on every name that [zprefixed] makes,
    and stripping it gives the name back. *)
Theorem zunprefixed_of_zprefixed (prop : string) :
  is_zprefixed (zprefixed prop) = true
  /\ zunprefixed (zprefixed prop) = prop.
Proof.
  split; [|reflexivity].
  unfold is_zprefixed, zprefixed, Py.startswith.
  rewrite <- append_assoc.
  generalize (ZBACKUP_MODULE ++ ":")%string. intros p.
  induction p as [|x p IH]; simpl; [now destruct prop|].
  destruct (ascii_dec x x); [exact IH | congruence].
Qed.

(** X2. A name on which the module prefix is recognised is the prefixed form of
    its stripped name. *)
Theorem zprefixed_of_zunprefixed (prefixed_property : string) :
  is_zprefixed prefixed_property = true ->
  zprefixed (zunprefixed prefixed_property) = prefixed_property.
Proof.
  unfold is_zprefixed, Py.startswith. intros H.
  apply prefix_correct in H.
  assert (Hgen : forall p s : string,
             substring 0 (String.length p) s = p ->
             (p ++ Py.drop (String.length p) s)%string = s).
  { induction p as [|x p IH]; intros [|y s]; simpl; try discriminate;
      try reflexivity.
    intros Hs. injection Hs as -> Hs. now rewrite IH. }
  unfold zprefixed, zunprefixed. rewrite <- append_assoc.
  exact (Hgen _ _ H).
Qed.

Lemma zprefixed_of_zunprefixed_witness :
  zprefixed (zunprefixed "com.github.tesujimath.zbackup:replica")
  = "com.github.tesujimath.zbackup:replica".
Proof.
  apply (zprefixed_of_zunprefixed "com.github.tesujimath.zbackup:replica").
  reflexivity.
Defined.

(** X3. The formatter finds the tier of a name again: of the snapshots name of
    a tier and of its snapshot-limit name, whatever the tier is called. *)
Theorem snapshot_tier_of_tier_names (tier : string) :
  snapshot_tier_of (snapshots_property tier) = Some tier
  /\ snapshot_tier_of (snapshot_limit_property tier) = Some tier.
Proof.
  unfold snapshot_tier_of. split.
  - unfold snapshots_property.
    now rewrite endswith_append, drop_last_append.
  - rewrite limit_name_is_no_snapshots_name. unfold snapshot_limit_property.
    now rewrite endswith_append, drop_last_append.
Qed.

Lemma append_suffix_inj (a b suffix : string) :
  (a ++ suffix = b ++ suffix)%string -> a = b.
Proof.
  intros H. rewrite <- (drop_last_append a suffix), H.
  apply drop_last_append.
Qed.

(** X4. The names of two tiers never collide: the snapshots name of one tier is
    not the snapshot-limit name of any tier, neither is [replica] or
    [replicate], and different tiers have different names. *)
Theorem tier_names_do_not_collide (tier other : string) :
  snapshots_property tier <> snapshot_limit_property other
  /\ (snapshots_property tier = snapshots_property other -> tier = other)
  /\ (snapshot_limit_property tier = snapshot_limit_property other ->
      tier = other)
  /\ is_replication_name (snapshots_property tier) = false
  /\ is_replication_name (snapshot_limit_property tier) = false.
Proof.
  split; [|split; [|split; [|split]]].
  - intros H.
    pose proof (endswith_append tier SNAPSHOTS_PROPERTY_SUFFIX) as H1.
    fold (snapshots_property tier) in H1.
    rewrite H, limit_name_is_no_snapshots_name in H1. discriminate.
  - apply append_suffix_inj.
  - apply append_suffix_inj.
  - unfold is_replication_name. apply orb_false_iff.
    split; apply String.eqb_neq; intros H;
      pose proof (endswith_append tier SNAPSHOTS_PROPERTY_SUFFIX) as H1;
      fold (snapshots_property tier) in H1; rewrite H in H1; discriminate.
  - unfold is_replication_name. apply orb_false_iff.
    split; apply String.eqb_neq; intros H;
      pose proof (endswith_append tier SNAPSHOT_LIMIT_PROPERTY_SUFFIX) as H1;
      fold (snapshot_limit_property tier) in H1; rewrite H in H1;
      discriminate.
Qed.

(** ** The property reader: failures *)

Lemma read_line_malformed (properties : dict property_set) (line : string)
  (w : world) :
  List.length (fields line) <> 4 ->
  read_line properties line w = (inl ValueError, w).
Proof.
  unfold read_line, fields.
  destruct (Py.split "009" (Py.rstrip_nl line))
    as [|name [|prop [|value [|source [|]]]]]; simpl;
    try reflexivity.
  intros H. now contradict H.
Qed.

Lemma read_line_error (properties : dict property_set) (line : string)
  (w w' : world) (e : exn) :
  read_line properties line w = (inl e, w') -> e = ValueError.
Proof.
  unfold read_line.
  destruct (Py.split "009" (Py.rstrip_nl line))
    as [|name [|prop [|value [|source [|]]]]];
    try (intros H; injection H as <- _; reflexivity).
  destruct (is_zprefixed prop); [|discriminate].
  destruct (_ || _); [|discriminate].
  destruct (negb _); discriminate.
Qed.


Lemma read_lines_malformed (lines : list string) (line : string)
  (properties : dict property_set) (w : world) :
  In line lines ->
  List.length (fields line) <> 4 ->
  exists w', read_lines properties lines w = (inl ValueError, w').
Proof.
  intros Hin Hbad. revert properties w.
  induction lines as [|l lines IH]; intros properties w; [destruct Hin|].
  simpl. unfold bind.
  destruct (read_line properties l w) as [[e1|properties1] w1] eqn:H1.
  - apply read_line_error in H1 as ->. now exists w1.
  - destruct Hin as [->|Hin].
    + rewrite (read_line_malformed _ _ _ Hbad) in H1. discriminate.
    + apply (IH Hin).
Qed.

Lemma get_backup_properties_run
  (zfs_get : list string -> list string * Z) (zpool : string)
  (tier : option string) (w : world) :
  get_backup_properties zfs_get zpool tier w =
  match read_lines [] (fst (zfs_get (zfs_get_command zpool tier))) w with
  | (inl e, w1) => (inl e, w1)
  | (inr properties, w1) =>
      if (snd (zfs_get (zfs_get_command zpool tier)) =? 0)%Z
      then (inr properties, w1)
      else (inl (CalledProcessError
                   (snd (zfs_get (zfs_get_command zpool tier)))
                   (zfs_get_command zpool tier)), w1)
  end.
Proof.
  unfold get_backup_properties, zfs_get_command.
  destruct tier as [tier|];
    destruct (zfs_get _) as [stdout retcode]; simpl; unfold bind;
    destruct (read_lines [] stdout w) as [[e|d] w1]; try reflexivity;
    destruct (retcode =? 0)%Z; reflexivity.
Qed.



(** X6. A line of [zfs get] that does not have exactly four fields between
    tabs makes the reader raise [ValueError]: a value with a tab in it is
    not read as a value. *)
Theorem reader_raises_on_malformed_line
  (zfs_get : list string -> list string * Z) (zpool : string)
  (tier : option string) (w : world) (line : string) :
  In line (fst (zfs_get (zfs_get_command zpool tier))) ->
  List.length (fields line) <> 4 ->
  exists w',
    get_backup_properties zfs_get zpool tier w = (inl ValueError, w').
Proof.
  intros Hin Hbad. rewrite get_backup_properties_run.
  destruct (read_lines_malformed _ _ [] w Hin Hbad) as (w' & ->).
  now exists w'.
Qed.

Lemma reader_raises_on_malformed_line_witness :
  exists w',
    get_backup_properties
      (fun _ => ([zfs_row "tank" (zprefixed "replica")
                          (String "009" "host") "local"], 0%Z))
      "tank" None w0
    = (inl ValueError, w').
Proof.
  apply (reader_raises_on_malformed_line
           (fun _ => ([zfs_row "tank" (zprefixed "replica")
                               (String "009" "host") "local"], 0%Z))
           "tank" None w0
           (zfs_row "tank" (zprefixed "replica") (String "009" "host")
                    "local")).
  - left. reflexivity.
  - discriminate.
Defined.

(** ** The property reader: one row *)

Lemma has_char_append (c : ascii) (a b : string) :
  Py.has_char c (a ++ b) = Py.has_char c a || Py.has_char c b.
Proof.
  induction a as [|x a IH]; simpl; [reflexivity|].
  now rewrite IH, orb_assoc.
Qed.

Lemma split_one (sep : ascii) (s : string) :
  Py.has_char sep s = false -> Py.split sep s = [s].
Proof.
  induction s as [|c s IH]; simpl; [reflexivity|].
  intros H. apply orb_false_iff in H. destruct H as [Hc Hs].
  rewrite Hc, (IH Hs). reflexivity.
Qed.

Lemma split_append (sep : ascii) (a b : string) :
  Py.has_char sep a = false ->
  Py.split sep (a ++ String sep b) = a :: Py.split sep b.
Proof.
  induction a as [|c a IH]; simpl.
  - now rewrite Ascii.eqb_refl.
  - intros H. apply orb_false_iff in H. destruct H as [Hc Ha].
    rewrite Hc, (IH Ha). reflexivity.
Qed.

Lemma rstrip_nl_newline (s : string) :
  Py.has_char "010" s = false ->
  Py.rstrip_nl (s ++ String "010" EmptyString) = s.
Proof.
  induction s as [|c s IH]; simpl; [reflexivity|].
  intros H. apply orb_false_iff in H. destruct H as [Hc Hs].
  rewrite (IH Hs). destruct s; [now rewrite Hc | reflexivity].
Qed.

Lemma rstrip_nl_cons (c : ascii) (s : string) :
  Ascii.eqb c "010" = false ->
  Py.rstrip_nl (String c s) = String c (Py.rstrip_nl s).
Proof.
  intros Hc. simpl. destruct (Py.rstrip_nl s); [now rewrite Hc | reflexivity].
Qed.

Lemma rstrip_nl_append (a : string) (c : ascii) (s : string) :
  Ascii.eqb c "010" = false ->
  Py.rstrip_nl (a ++ String c s) = (a ++ String c (Py.rstrip_nl s))%string.
Proof.
  intros Hc. induction a as [|x a IH]; simpl.
  - destruct (Py.rstrip_nl s); [now rewrite Hc | reflexivity].
  - rewrite IH. now destruct a.
Qed.

(** What the reader unpacks from a row: its four fields, when there is no
    tab in them and the source has no end of line in it. *)
Lemma fields_of_row (name prop value source : string) :
  Py.has_char "009" name = false ->
  Py.has_char "009" prop = false ->
  Py.has_char "009" value = false ->
  Py.has_char "009" source = false ->
  Py.has_char "010" source = false ->
  fields (zfs_row name prop value source) = [name; prop; value; source].
Proof.
  intros Hn Hp Hv Hs Hnl. unfold fields, zfs_row. simpl.
  do 3 rewrite rstrip_nl_append by reflexivity.
  rewrite rstrip_nl_newline by exact Hnl.
  rewrite split_append by exact Hn.
  rewrite split_append by exact Hp.
  rewrite split_append by exact Hv.
  now rewrite split_one by exact Hs.
Qed.

Lemma zprefixed_no_tab (bare : string) :
  Py.has_char "009" bare = false ->
  Py.has_char "009" (zprefixed bare) = false.
Proof.
  intros H. unfold zprefixed. rewrite !has_char_append, H. reflexivity.
Qed.

Lemma prefixed_name_read (bare : string) :
  is_zprefixed (zprefixed bare) = true /\ zunprefixed (zprefixed bare) = bare.
Proof.
  split; [|reflexivity].
  unfold is_zprefixed, zprefixed, Py.startswith. rewrite <- append_assoc.
  induction (ZBACKUP_MODULE ++ ":")%string as [|x p IH]; simpl;
    [now destruct bare|].
  destruct (ascii_dec x x); [exact IH | congruence].
Qed.

Lemma not_inherited (source : string) :
  source = "local" \/ source = "received" ->
  (if Py.startswith source "inherited" then "inherited" else source) = source.
Proof. intros [-> | ->]; reflexivity. Qed.

(** X7. A row for a property of the module, with source [local] or [received]
    and a value other than [-], is recorded: afterwards the filesystem has
    the value and the source under the bare name. The other names of the
    filesystem and the other filesystems are as before. *)
Theorem read_line_records_row (properties : dict property_set)
  (name bare_property value source : string) (w : world) :
  Py.has_char "009" name = false ->
  Py.has_char "009" bare_property = false ->
  Py.has_char "009" value = false ->
  source = "local" \/ source = "received" ->
  value <> "-" ->
  exists properties' msg,
    read_line properties
              (zfs_row name (zprefixed bare_property) value source) w
    = (inr properties',
       World (trace w ++ [VerboseStderr msg]) (pending w))
    /\ (exists entries,
          dict_get properties' name = Some entries
          /\ dict_get entries bare_property = Some (value, source)
          /\ forall other,
              other <> bare_property ->
              dict_get entries other =
              match dict_get properties name with
              | Some old => dict_get old other
              | None => None
              end)
    /\ forall filesystem,
        filesystem <> name ->
        dict_get properties' filesystem = dict_get properties filesystem.
Proof.
  intros Hn Hb Hv Hs Hval.
  assert (Hf : fields (zfs_row name (zprefixed bare_property) value source)
               = [name; zprefixed bare_property; value; source]).
  { apply fields_of_row; auto using zprefixed_no_tab;
      destruct Hs as [-> | ->]; reflexivity. }
  unfold read_line. unfold fields in Hf. rewrite Hf.
  destruct (prefixed_name_read bare_property) as [-> ->].
  rewrite (not_inherited _ Hs).
  replace (String.eqb source "local" || String.eqb source "received")
    with true by (destruct Hs as [-> | ->]; reflexivity).
  apply String.eqb_neq in Hval. rewrite Hval. simpl negb. cbv iota.
  unfold bind, verbose_stderr, emit, ret.
  eexists _, _. split; [reflexivity|].
  unfold dict_mem.
  destruct (dict_get properties name) as [old|] eqn:Hold; simpl negb;
    cbv iota.
  - rewrite Hold. split.
    + eexists. rewrite dict_get_set, String.eqb_refl.
      split; [reflexivity|]. rewrite dict_get_set, String.eqb_refl.
      split; [reflexivity|]. intros other Ho. rewrite dict_get_set.
      apply not_eq_sym, String.eqb_neq in Ho. now rewrite Ho.
    + intros fs Hfs. rewrite dict_get_set.
      apply not_eq_sym, String.eqb_neq in Hfs. now rewrite Hfs.
  - rewrite dict_get_set, String.eqb_refl. split.
    + eexists. rewrite dict_get_set, String.eqb_refl.
      split; [reflexivity|]. simpl. rewrite String.eqb_refl.
      split; [reflexivity|]. intros other Ho.
      apply not_eq_sym, String.eqb_neq in Ho. now rewrite Ho.
    + intros fs Hfs. rewrite !dict_get_set.
      apply not_eq_sym, String.eqb_neq in Hfs. now rewrite Hfs.
Qed.

Lemma read_line_records_row_witness :
  exists properties' msg,
    read_line [("tank/home", [("replica", ("old", "local"))])]
              (zfs_row "tank/home" (zprefixed "replica") "host/pool"
                       "received") w0
    = (inr properties', World (trace w0 ++ [VerboseStderr msg]) (pending w0))
    /\ (exists entries,
          dict_get properties' "tank/home" = Some entries
          /\ dict_get entries "replica" = Some ("host/pool", "received")
          /\ forall other,
              other <> "replica" ->
              dict_get entries other =
              match dict_get [("tank/home", [("replica", ("old", "local"))])]
                             "tank/home" with
              | Some old => dict_get old other
              | None => None
              end)
    /\ forall filesystem,
        filesystem <> "tank/home" ->
        dict_get properties' filesystem
        = dict_get [("tank/home", [("replica", ("old", "local"))])] filesystem.
Proof.
  apply (read_line_records_row
           [("tank/home", [("replica", ("old", "local"))])]
           "tank/home" "replica" "host/pool" "received" w0).
  - reflexivity.
  - reflexivity.
  - reflexivity.
  - right. reflexivity.
  - discriminate.
Defined.

(** X8. A row is passed over when its property is not one of the module, or
    when its source is neither [local] nor [received]: inherited from some
    filesystem, default, or none. The dictionary stays as it is: not even
    the filesystem is entered. *)
Theorem read_line_passes_over_row (properties : dict property_set)
  (name prop value source : string) (w : world) :
  Py.has_char "009" name = false ->
  Py.has_char "009" prop = false ->
  Py.has_char "009" value = false ->
  Py.has_char "009" source = false ->
  Py.has_char "010" source = false ->
  is_zprefixed prop = false \/ (source <> "local" /\ source <> "received") ->
  read_line properties (zfs_row name prop value source) w
  = (inr properties, w).
Proof.
  intros Hn Hp Hv Hs Hnl Hcase.
  pose proof (fields_of_row _ _ _ _ Hn Hp Hv Hs Hnl) as Hf.
  unfold read_line. unfold fields in Hf. rewrite Hf.
  destruct (is_zprefixed prop); [|reflexivity].
  destruct Hcase as [Hcase|[Hl Hr]]; [discriminate|].
  destruct (Py.startswith source "inherited"); [reflexivity|].
  apply String.eqb_neq in Hl, Hr. now rewrite Hl, Hr.
Qed.

Lemma read_line_passes_over_row_witness :
  read_line [] (zfs_row "tank/home" (zprefixed "daily-snapshots") "7"
                        "inherited from tank") w0
  = (inr [], w0).
Proof.
  apply (read_line_passes_over_row [] "tank/home"
           (zprefixed "daily-snapshots") "7" "inherited from tank" w0);
    try reflexivity.
  right. split; discriminate.
Defined.

(** X9. A row of the module with source [local] or [received] and the unset
    value [-] records no entry and reports nothing, but it makes the
    filesystem known: a filesystem seen for the first time gets an empty
    property set, and one seen before keeps what it has. *)
Theorem read_line_unset_row (properties : dict property_set)
  (name bare_property source : string) (w : world) :
  Py.has_char "009" name = false ->
  Py.has_char "009" bare_property = false ->
  source = "local" \/ source = "received" ->
  read_line properties (zfs_row name (zprefixed bare_property) "-" source) w
  = (inr (match dict_get properties name with
          | Some _ => properties
          | None => dict_set properties name []
          end), w).
Proof.
  intros Hn Hb Hs.
  assert (Hf : fields (zfs_row name (zprefixed bare_property) "-" source)
               = [name; zprefixed bare_property; "-"; source]).
  { apply fields_of_row; auto using zprefixed_no_tab;
      destruct Hs as [-> | ->]; reflexivity. }
  unfold read_line. unfold fields in Hf. rewrite Hf.
  destruct (prefixed_name_read bare_property) as [-> _].
  rewrite (not_inherited _ Hs).
  replace (String.eqb source "local" || String.eqb source "received")
    with true by (destruct Hs as [-> | ->]; reflexivity).
  unfold dict_mem. simpl.
  destruct (dict_get properties name); reflexivity.
Qed.

Lemma read_line_unset_row_witness :
  read_line [] (zfs_row "tank/home" (zprefixed "replica") "-" "local") w0
  = (inr [("tank/home", [])], w0).
Proof.
  apply (read_line_unset_row [] "tank/home" "replica" "local" w0).
  - reflexivity.
  - reflexivity.
  - left. reflexivity.
Defined.

(** ** What a backup runs *)

Lemma runs_only_ret {A : Type} (P : list string -> Prop) (a : A) :
  runs_only P (ret a).
Proof.
  intros w w' r H. injection H as <- <-. exists [].
  rewrite app_nil_r. split; [reflexivity | intros ? ? []].
Qed.

Lemma runs_only_bind {A B : Type} (P : list string -> Prop) (m : M A)
  (k : A -> M B) :
  runs_only P m -> (forall a, runs_only P (k a)) -> runs_only P (bind m k).
Proof.
  intros Hm Hk w w' r. unfold bind.
  destruct (m w) as [[e|a] w1] eqn:H1; intros H.
  - injection H as <- <-. exact (Hm _ _ _ H1).
  - destruct (Hm _ _ _ H1) as (evs1 & Ht1 & Hp1).
    destruct (Hk a _ _ _ H) as (evs2 & Ht2 & Hp2).
    exists (evs1 ++ evs2). split.
    + now rewrite Ht2, Ht1, app_assoc.
    + intros cmd status Hin. apply in_app_or in Hin.
      destruct Hin; eauto.
Qed.

Lemma runs_only_stderr (P : list string -> Prop) (msg : string) :
  runs_only P (stderr msg).
Proof.
  intros w w' r H. injection H as _ <-. exists [Stderr msg].
  split; [reflexivity|]. intros cmd status [Hin|[]]. discriminate.
Qed.

Lemma runs_only_verbose_stderr (P : list string -> Prop) (msg : string) :
  runs_only P (verbose_stderr msg).
Proof.
  intros w w' r H. injection H as _ <-. exists [VerboseStderr msg].
  split; [reflexivity|]. intros cmd status [Hin|[]]. discriminate.
Qed.

Lemma runs_only_check_call (P : list string -> Prop) (cmd : list string) :
  P cmd -> runs_only P (check_call cmd).
Proof.
  intros Hp w w' r. unfold check_call. intros H.
  exists [Exec cmd (hd 0%Z (pending w))]. split.
  - destruct (_ =? _)%Z; injection H as _ <-; reflexivity.
  - intros c s [Hin|[]]. now injection Hin as <- _.
Qed.

Lemma runs_only_for_each {A : Type} (P : list string -> Prop) (l : list A)
  (body : A -> M unit) :
  (forall x, runs_only P (body x)) -> runs_only P (for_each l body).
Proof.
  intros Hb. induction l as [|x l IH]; simpl.
  - apply runs_only_ret.
  - apply runs_only_bind; [apply Hb | intros _; exact IH].
Qed.

Lemma runs_only_property_int_value_or_none (P : list string -> Prop)
  (filesystem : string) (properties : property_set) (property_name : string) :
  runs_only P (property_int_value_or_none filesystem properties property_name).
Proof.
  unfold property_int_value_or_none.
  destruct (property_has_value properties property_name);
    [|apply runs_only_ret].
  destruct (dict_get properties property_name) as [[value_s source]|];
    [|apply runs_only_ret].
  destruct (Py.int value_s); [apply runs_only_ret|].
  apply runs_only_bind; [apply runs_only_stderr|].
  intros _. apply runs_only_ret.
Qed.

Lemma runs_only_snapshot_decision (P : list string -> Prop)
  (tier filesystem : string) (properties : property_set) :
  runs_only P (snapshot_decision tier filesystem properties).
Proof.
  unfold snapshot_decision.
  apply runs_only_bind; [apply runs_only_property_int_value_or_none|].
  intros [snapshots source].
  apply runs_only_bind; [apply runs_only_property_int_value_or_none|].
  intros [limit limit_source]. apply runs_only_ret.
Qed.

Lemma runs_only_snapshot (P : list string -> Prop) (tier filesystem : string)
  (take_snapshot : bool) (keep : Z) (options : options) :
  P (zsnap_command tier filesystem take_snapshot keep options) ->
  runs_only P (snapshot tier filesystem take_snapshot keep options).
Proof.
  intros Hp. unfold snapshot.
  apply runs_only_bind; [apply runs_only_verbose_stderr|].
  intros _. now apply runs_only_check_call.
Qed.

Lemma runs_only_replicate (P : list string -> Prop)
  (filesystem destination : string) (options : options) :
  (forall tier, P (zsnap_command tier filesystem false 0 options)) ->
  P (zreplicate_command filesystem destination options) ->
  runs_only P (replicate filesystem destination options).
Proof.
  intros Hs Hr. unfold replicate.
  apply runs_only_bind.
  - apply runs_only_for_each. intros tier. apply runs_only_snapshot, Hs.
  - intros _. apply runs_only_bind; [apply runs_only_verbose_stderr|].
    intros _. now apply runs_only_check_call.
Qed.

(** What [backup_or_reap_snapshots] may run, given what holds for the
    commands that it builds. *)
Lemma runs_only_backup (P : list string -> Prop) (tier filesystem : string)
  (properties : property_set) (options : options) :
  (forall tier take_snapshot keep,
      P (zsnap_command tier filesystem take_snapshot keep options)) ->
  (forall destination,
      P (zreplicate_command filesystem destination options)) ->
  runs_only P (backup_or_reap_snapshots tier filesystem properties options).
Proof.
  intros Hs Hr. unfold backup_or_reap_snapshots.
  apply runs_only_bind; [apply runs_only_snapshot_decision|].
  intros [take_snapshot snapshots].
  apply runs_only_bind.
  - destruct snapshots as [keep|];
      [apply runs_only_snapshot, Hs | apply runs_only_ret].
  - intros _. rewrite replicate_if_requested_targets.
    apply runs_only_for_each. intros destination.
    apply runs_only_replicate; [intros t; apply Hs | apply Hr].
Qed.

Lemma zsnap_command_dryrun (tier filesystem : string) (take_snapshot : bool)
  (keep : Z) (options : options) :
  dryrun options = true ->
  In "-n" (zsnap_command tier filesystem take_snapshot keep options).
Proof.
  intros H. unfold zsnap_command. rewrite H.
  do 4 (apply in_or_app; right). apply in_or_app. left. now left.
Qed.

Lemma zreplicate_command_dryrun (filesystem destination : string)
  (options : options) :
  dryrun options = true ->
  In "-n" (zreplicate_command filesystem destination options).
Proof.
  intros H. unfold zreplicate_command. rewrite H.
  do 2 (apply in_or_app; right). apply in_or_app. left. now left.
Qed.

(** X10. With the dry-run option, every child process that
    [backup_or_reap_snapshots] runs, to snapshot, to prune or to replicate,
    is given [-n]. *)
Theorem dry_run_reaches_every_command (tier filesystem : string)
  (properties : property_set) (options : options) (w w' : world)
  (r : exn + unit) :
  dryrun options = true ->
  backup_or_reap_snapshots tier filesystem properties options w = (r, w') ->
  exists evs,
    trace w' = trace w ++ evs
    /\ forall cmd status, In (Exec cmd status) evs -> In "-n" cmd.
Proof.
  intros Hd Hrun.
  apply (runs_only_backup (fun cmd => In "-n" cmd) tier filesystem
           properties options) with (r := r); [| |exact Hrun].
  - intros. now apply zsnap_command_dryrun.
  - intros. now apply zreplicate_command_dryrun.
Qed.

Lemma dry_run_reaches_every_command_witness :
  let options := Options (Some "hourly") "auto-" false None true None None in
  let properties :=
    [("daily-snapshots", ("7", "local")); ("replicate", ("daily", "local"));
     ("replica", ("host/pool", "local"))] in
  exists evs,
    trace (snd (backup_or_reap_snapshots "daily" "tank/home" properties
                  options w0))
    = trace w0 ++ evs
    /\ forall cmd status, In (Exec cmd status) evs -> In "-n" cmd.
Proof.
  intros options properties.
  apply (dry_run_reaches_every_command "daily" "tank/home" properties
           options w0 _ (inr tt)); reflexivity.
Defined.

Lemma zsnap_command_on (tier filesystem : string) (take_snapshot : bool)
  (keep : Z) (options : options) :
  command_on filesystem
             (zsnap_command tier filesystem take_snapshot keep options).
Proof.
  left. unfold zsnap_command.
  exists (["-k"; Py.str keep; "-p"; (prefix options ++ tier ++ "-")%string]
          ++ (if negb take_snapshot then ["--nosnapshot"] else [])
          ++ (if verbose options then ["-v"] else [])
          ++ (match timeformat options with
              | Some t => ["-t"; t]
              | None => []
              end)
          ++ (if dryrun options then ["-n"] else [])
          ++ (match zsnap_options options with
              | Some o => Py.split_ws o
              | None => []
              end)).
  simpl. now rewrite <- !app_assoc.
Qed.

Lemma zreplicate_command_on (filesystem destination : string)
  (options : options) :
  command_on filesystem (zreplicate_command filesystem destination options).
Proof.
  right. unfold zreplicate_command.
  exists (["--create-destination"; "--no-replication-stream"]
          ++ (if verbose options then ["-v"] else [])
          ++ (if dryrun options then ["-n"] else [])
          ++ (match zreplicate_options options with
              | Some o => Py.split_ws o
              | None => []
              end)), destination.
  simpl. now rewrite <- !app_assoc.
Qed.

(** X11. Whatever the properties and the options are, every child process that
    [backup_or_reap_snapshots] runs is [zsnap] or [zreplicate] on the
    filesystem it was called for: options passed on to the tools come
    before the filesystem, never in its place. *)
Theorem backup_runs_commands_on_filesystem (tier filesystem : string)
  (properties : property_set) (options : options) (w : world) :
  exists evs,
    trace (snd (backup_or_reap_snapshots tier filesystem properties options w))
    = trace w ++ evs
    /\ forall cmd status,
        In (Exec cmd status) evs -> command_on filesystem cmd.
Proof.
  apply (runs_only_backup (command_on filesystem) tier filesystem
           properties options)
    with (r := fst (backup_or_reap_snapshots tier filesystem properties
                      options w)).
  - intros. apply zsnap_command_on.
  - intros. apply zreplicate_command_on.
  - now destruct (backup_or_reap_snapshots _ _ _ _ _).
Qed.

(** ** Failures of the tools *)










(** ** A backup with tools that succeed *)

Lemma execs_app (a b : list event) : execs (a ++ b) = execs a ++ execs b.
Proof. apply filter_app. Qed.

Lemma execs_none (evs : list event) :
  (forall cmd status, In (Exec cmd status) evs -> False) -> execs evs = [].
Proof.
  induction evs as [|e evs IH]; intros H; [reflexivity|].
  destruct e as [msg|msg|cmd status]; simpl.
  - apply IH. intros c s Hin. apply (H c s). now right.
  - apply IH. intros c s Hin. apply (H c s). now right.
  - exfalso. apply (H cmd status). now left.
Qed.

Lemma all_succeed_skipn (n : nat) (w : world) (evs : list event) :
  all_succeed w -> all_succeed (World evs (skipn n (pending w))).
Proof.
  unfold all_succeed. simpl. intros H. rewrite Forall_forall in *.
  intros s Hs. apply H. revert Hs. generalize (pending w).
  induction n as [|n IH]; intros [|x l]; simpl; auto.
Qed.

Lemma succeeds_ret : succeeds (ret tt) [].
Proof.
  intros w _. exists []. simpl. rewrite app_nil_r. now destruct w.
Qed.

Lemma succeeds_verbose_stderr (msg : string) :
  succeeds (verbose_stderr msg) [].
Proof. intros w _. exists [VerboseStderr msg]. now split. Qed.

Lemma succeeds_check_call (cmd : list string) :
  succeeds (check_call cmd) [cmd].
Proof.
  intros w Hw. exists [Exec cmd 0]. unfold check_call.
  assert (Hhd : hd 0%Z (pending w) = 0%Z).
  { unfold all_succeed in Hw. destruct (pending w) as [|s l];
      [reflexivity|]. now inversion Hw. }
  rewrite Hhd. simpl. split; [|reflexivity].
  destruct (pending w); reflexivity.
Qed.

Lemma succeeds_then (m k : M unit) (c1 c2 : list (list string)) :
  succeeds m c1 -> succeeds k c2 -> succeeds (m ;; k) (c1 ++ c2).
Proof.
  intros Hm Hk w Hw. unfold bind.
  destruct (Hm w Hw) as (evs1 & -> & He1).
  destruct (Hk _ (all_succeed_skipn (List.length c1) w (trace w ++ evs1) Hw))
    as (evs2 & -> & He2).
  exists (evs1 ++ evs2). simpl. split.
  - rewrite skipn_skipn, length_app, app_assoc, Nat.add_comm. reflexivity.
  - now rewrite execs_app, He1, He2, map_app.
Qed.

Lemma succeeds_for_each {A : Type} (l : list A) (body : A -> M unit)
  (plan : A -> list (list string)) :
  (forall x, succeeds (body x) (plan x)) ->
  succeeds (for_each l body) (flat_map plan l).
Proof.
  intros Hb. induction l as [|x l IH]; simpl.
  - apply succeeds_ret.
  - apply succeeds_then; [apply Hb | exact IH].
Qed.

Lemma succeeds_snapshot (tier filesystem : string) (take_snapshot : bool)
  (keep : Z) (options : options) :
  succeeds (snapshot tier filesystem take_snapshot keep options)
           [zsnap_command tier filesystem take_snapshot keep options].
Proof.
  unfold snapshot.
  apply (succeeds_then _ _ [] [_]);
    [apply succeeds_verbose_stderr | apply succeeds_check_call].
Qed.

Lemma flat_map_single {A B : Type} (f : A -> B) (l : list A) :
  flat_map (fun x => [f x]) l = map f l.
Proof.
  induction l as [|x l IH]; simpl; [reflexivity | now rewrite IH].
Qed.

Lemma succeeds_replicate (filesystem destination : string)
  (options : options) :
  succeeds (replicate filesystem destination options)
           (replicate_plan filesystem destination options).
Proof.
  unfold replicate, replicate_plan. apply succeeds_then.
  - rewrite <- flat_map_single.
    apply succeeds_for_each. intros tier. apply succeeds_snapshot.
  - apply (succeeds_then _ _ [] [_]);
      [apply succeeds_verbose_stderr | apply succeeds_check_call].
Qed.

Lemma snapshot_decision_runs_nothing (tier filesystem : string)
  (properties : property_set) (w : world) :
  exists evs,
    snapshot_decision tier filesystem properties w =
    (inr (match dict_get properties (snapshots_property tier) with
          | Some (value_s, source) =>
              match parsed_value properties (snapshots_property tier) with
              | Some _ => String.eqb source "local"
              | None => false
              end
          | None => false
          end,
          match parsed_value properties (snapshot_limit_property tier) with
          | Some limit => Some limit
          | None => parsed_value properties (snapshots_property tier)
          end),
     World (trace w ++ evs) (pending w))
    /\ execs evs = [].
Proof.
  destruct (snapshot_decision_values tier filesystem properties w)
    as (evs & H).
  exists evs. split; [exact H|].
  destruct (runs_only_snapshot_decision (fun _ => False) tier filesystem
              properties _ _ _ H) as (evs' & Ht & Hnone).
  simpl in Ht. apply app_inv_head in Ht. subst evs'.
  now apply execs_none.
Qed.

(** X13. When every tool succeeds, [backup_or_reap_snapshots] returns and the
    child processes it has run are exactly its plan, in order, each with
    status 0: one [zsnap] for the tier if the properties give a count, then
    for each destination the prunes of the delete-tiers option and one
    [zreplicate]. *)
Theorem backup_runs_its_plan (tier filesystem : string)
  (properties : property_set) (options : options) (w : world) :
  all_succeed w ->
  exists evs,
    backup_or_reap_snapshots tier filesystem properties options w
    = (inr tt,
       World (trace w ++ evs)
             (skipn (List.length (backup_plan tier filesystem properties
                                              options))
                    (pending w)))
    /\ execs evs
       = map (fun cmd => Exec cmd 0)
             (backup_plan tier filesystem properties options).
Proof.
  intros Hw. unfold backup_or_reap_snapshots, backup_plan. unfold bind at 1.
  destruct (snapshot_decision_runs_nothing tier filesystem properties w)
    as (evs0 & -> & He0).
  set (take := match dict_get properties (snapshots_property tier) with
               | Some (value_s, source) => _
               | None => false
               end).
  set (count := match parsed_value properties (snapshot_limit_property tier)
                with
                | Some limit => Some limit
                | None => _
                end).
  assert (Hrest : succeeds
            (match count with
             | Some keep => snapshot tier filesystem take keep options
             | None => ret tt
             end ;;
             replicate_if_requested tier filesystem properties options)
            (match count with
             | Some keep => [zsnap_command tier filesystem take keep options]
             | None => []
             end
             ++ flat_map (fun destination =>
                            replicate_plan filesystem destination options)
                         (replica_targets tier properties))).
  { apply succeeds_then.
    - destruct count; [apply succeeds_snapshot | apply succeeds_ret].
    - rewrite replicate_if_requested_targets.
      apply succeeds_for_each. intros destination.
      apply succeeds_replicate. }
  destruct (Hrest (World (trace w ++ evs0) (pending w)))
    as (evs & -> & He); [exact Hw|].
  exists (evs0 ++ evs). simpl. rewrite app_assoc. split; [reflexivity|].
  now rewrite execs_app, He0, He.
Qed.

Lemma backup_runs_its_plan_witness :
  let options := Options (Some "hourly") "auto-" false None false None None in
  let properties :=
    [("daily-snapshots", ("7", "received"));
     ("daily-snapshot-limit", ("3", "local"));
     ("replicate", ("daily", "local")); ("replica", ("host/pool", "local"))] in
  exists evs,
    backup_or_reap_snapshots "daily" "tank/home" properties options w0
    = (inr tt, World (trace w0 ++ evs) [])
    /\ execs evs
       = [Exec ["zsnap"; "-k"; "3"; "-p"; "auto-daily-"; "--nosnapshot";
                "tank/home"] 0;
          Exec ["zsnap"; "-k"; "0"; "-p"; "auto-hourly-"; "--nosnapshot";
                "tank/home"] 0;
          Exec ["zreplicate"; "--create-destination";
                "--no-replication-stream"; "tank/home"; "host/pool"] 0].
Proof.
  intros options properties.
  apply (backup_runs_its_plan "daily" "tank/home" properties options w0).
  constructor.
Defined.

(** X14. Without a count and without a destination there is nothing to do:
    [backup_or_reap_snapshots] returns, runs no child process and leaves the
    pending ones alone. This is so for a filesystem with an empty property
    set, and for values that are [none] or do not parse. *)
Theorem backup_without_policy_runs_nothing (tier filesystem : string)
  (properties : property_set) (options : options) (w : world) :
  parsed_value properties (snapshots_property tier) = None ->
  parsed_value properties (snapshot_limit_property tier) = None ->
  replica_targets tier properties = [] ->
  exists evs,
    backup_or_reap_snapshots tier filesystem properties options w
    = (inr tt, World (trace w ++ evs) (pending w))
    /\ execs evs = [].
Proof.
  intros Hs Hl Ht. unfold backup_or_reap_snapshots. unfold bind at 1.
  destruct (snapshot_decision_runs_nothing tier filesystem properties w)
    as (evs & -> & He).
  rewrite Hs, Hl. unfold bind, ret.
  rewrite replicate_if_requested_targets, Ht. simpl.
  exists evs. now split.
Qed.

Lemma backup_without_policy_runs_nothing_witness :
  exists evs,
    backup_or_reap_snapshots "daily" "tank/home"
      [("daily-snapshots", ("seven", "local")); ("replica", ("h", "local"))]
      (Options None "auto-" false None false None None) (World [] [1%Z])
    = (inr tt, World (trace (World [] [1%Z]) ++ evs) [1%Z])
    /\ execs evs = [].
Proof.
  apply (backup_without_policy_runs_nothing "daily" "tank/home"
           [("daily-snapshots", ("seven", "local"));
            ("replica", ("h", "local"))]
           (Options None "auto-" false None false None None)
           (World [] [1%Z])); reflexivity.
Defined.

(** ** The formatter: what is shown *)

Lemma dict_get_keys {V : Type} (d : dict V) (k : string) :
  In k (dict_keys d) <-> dict_get d k <> None.
Proof.
  induction d as [|[k0 v0] d IH]; simpl.
  - split; [intros [] | congruence].
  - destruct (String.eqb_spec k0 k) as [->|Hk].
    + split; [discriminate | now left].
    + rewrite <- IH. split; [intros [H|H]; [congruence | exact H] | now right].
Qed.

Lemma split_by_source_lookup (properties : property_set) (name : string) :
  dict_get (fst (split_by_source properties)) name
  = local_entry properties name
  /\ dict_get (snd (split_by_source properties)) name
     = non_local_entry properties name.
Proof.
  unfold split_by_source, local_entry, non_local_entry.
  set (step := fun (acc : property_set * property_set) (name : string) => _).
  assert (Hgen : forall ks l nl,
             dict_get (fst (fold_left step ks (l, nl))) name
             = (if existsb (String.eqb name) ks
                then match local_entry properties name with
                     | Some e => Some e
                     | None => dict_get l name
                     end
                else dict_get l name)
             /\ dict_get (snd (fold_left step ks (l, nl))) name
                = (if existsb (String.eqb name) ks
                   then match non_local_entry properties name with
                        | Some e => Some e
                        | None => dict_get nl name
                        end
                   else dict_get nl name)).
  { assert (Hstep : forall k l nl,
               dict_get (fst (step (l, nl) k)) name
               = (if String.eqb name k
                  then match local_entry properties name with
                       | Some e => Some e
                       | None => dict_get l name
                       end
                  else dict_get l name)
               /\ dict_get (snd (step (l, nl) k)) name
                  = (if String.eqb name k
                     then match non_local_entry properties name with
                          | Some e => Some e
                          | None => dict_get nl name
                          end
                     else dict_get nl name)).
    { intros k l nl. unfold step, local_entry, non_local_entry.
      destruct (String.eqb_spec name k) as [->|Hk].
      - destruct (dict_get properties k) as [e|]; [|now split].
        destruct (String.eqb (snd e) "local"); simpl;
          rewrite dict_get_set, String.eqb_refl; now split.
      - assert (Hk' : String.eqb k name = false)
          by (apply String.eqb_neq; congruence).
        destruct (dict_get properties k) as [e|]; [|now split].
        destruct (String.eqb (snd e) "local"); simpl;
          rewrite dict_get_set, Hk'; now split. }
    induction ks as [|k ks IH]; intros l nl; [now split|].
    change (fold_left step (k :: ks) (l, nl))
      with (fold_left step ks (step (l, nl) k)).
    simpl existsb.
    destruct (Hstep k l nl) as [H1 H2].
    destruct (step (l, nl) k) as [l' nl']. simpl in H1, H2.
    destruct (IH l' nl') as [-> ->]. rewrite H1, H2.
    unfold local_entry, non_local_entry.
    destruct (String.eqb name k), (existsb (String.eqb name) ks),
      (dict_get properties name) as [e|]; simpl;
      try destruct (String.eqb (snd e) "local"); now split. }
  destruct (Hgen (dict_keys properties) [] []) as [H1 H2].
  assert (Hin : dict_get properties name <> None ->
                existsb (String.eqb name) (dict_keys properties) = true).
  { intros Hg. apply existsb_exists. exists name.
    split; [now apply dict_get_keys | apply String.eqb_refl]. }
  unfold local_entry, non_local_entry in H1, H2.
  split; [etransitivity; [exact H1|] | etransitivity; [exact H2|]];
    simpl; destruct (dict_get properties name) as [e|];
    try (rewrite Hin by discriminate);
    try destruct (String.eqb (snd e) "local");
    try destruct (existsb _ _); reflexivity.
Qed.

Lemma take_drop (n : nat) (s : string) :
  (Py.take n s ++ Py.drop n s)%string = s.
Proof.
  revert s. induction n as [|n IH]; intros [|c s]; simpl; try reflexivity.
  now rewrite IH.
Qed.

Lemma endswith_split (name suffix : string) :
  Py.endswith name suffix = true ->
  name = (Py.drop_last (String.length suffix) name ++ suffix)%string.
Proof.
  unfold Py.endswith, Py.drop_last. intros H.
  apply andb_true_iff in H. destruct H as [_ H].
  apply String.eqb_eq in H.
  set (n := String.length name - String.length suffix) in *.
  rewrite <- H. symmetry. apply take_drop.
Qed.

Lemma snapshot_tier_of_inv (name tier : string) :
  snapshot_tier_of name = Some tier ->
  name = snapshots_property tier \/ name = snapshot_limit_property tier.
Proof.
  unfold snapshot_tier_of.
  destruct (Py.endswith name SNAPSHOTS_PROPERTY_SUFFIX) eqn:H1.
  - intros H. injection H as <-. left.
    exact (endswith_split name SNAPSHOTS_PROPERTY_SUFFIX H1).
  - destruct (Py.endswith name SNAPSHOT_LIMIT_PROPERTY_SUFFIX) eqn:H2;
      [|discriminate].
    intros H. injection H as <-. right.
    exact (endswith_split name SNAPSHOT_LIMIT_PROPERTY_SUFFIX H2).
Qed.

Lemma snapshot_tier_of_tier_names' (tier : string) :
  snapshot_tier_of (snapshots_property tier) = Some tier
  /\ snapshot_tier_of (snapshot_limit_property tier) = Some tier.
Proof.
  unfold snapshot_tier_of. split.
  - unfold snapshots_property.
    now rewrite endswith_append, drop_last_append.
  - rewrite limit_name_is_no_snapshots_name. unfold snapshot_limit_property.
    now rewrite endswith_append, drop_last_append.
Qed.

Lemma snapshots_name_not_limit_name (tier other : string) :
  snapshots_property tier <> snapshot_limit_property other.
Proof.
  intros H.
  pose proof (endswith_append tier SNAPSHOTS_PROPERTY_SUFFIX) as H1.
  fold (snapshots_property tier) in H1.
  rewrite H, limit_name_is_no_snapshots_name in H1. discriminate.
Qed.

(** One step of the second loop of the formatter. *)
Lemma fill_default_lookup (non_local l : property_set) (name : string) :
  (forall k e, dict_get l k = Some e ->
               dict_get (fill_default non_local l name) k = Some e)
  /\ (forall k e,
        dict_get (fill_default non_local l name) k = Some e ->
        dict_get l k = Some e
        \/ exists tier,
            snapshot_tier_of name = Some tier
            /\ k = snapshot_limit_property tier
            /\ dict_get non_local name = Some e)
  /\ (forall tier e,
        snapshot_tier_of name = Some tier ->
        dict_get non_local name = Some e ->
        dict_get (fill_default non_local l name)
                 (snapshot_limit_property tier) <> None).
Proof.
  unfold fill_default.
  destruct (snapshot_tier_of name) as [tier|];
    [|repeat split; auto; discriminate].
  destruct (dict_get non_local name) as [entry|];
    [|repeat split; auto; discriminate].
  unfold dict_mem.
  destruct (dict_get l (snapshot_limit_property tier)) as [old|] eqn:Hold;
    simpl.
  - repeat split; auto. intros t e Ht _. injection Ht as <-. congruence.
  - repeat split.
    + intros k e Hk. rewrite dict_get_set.
      destruct (String.eqb_spec (snapshot_limit_property tier) k) as [<-|];
        [congruence | exact Hk].
    + intros k e. rewrite dict_get_set.
      destruct (String.eqb_spec (snapshot_limit_property tier) k) as [<-|];
        [|now left].
      intros H. injection H as <-. right. now exists tier.
    + intros t e Ht _. injection Ht as <-.
      rewrite dict_get_set, String.eqb_refl. discriminate.
Qed.

(** The second loop: it keeps the entries that are there, it only adds
    snapshot-limit entries that come from a non-local name of the tier, and
    it leaves no such tier without a snapshot-limit entry. *)
Lemma fill_defaults_lookup (non_local : property_set) (names : list string)
  (l : property_set) :
  (forall k e, dict_get l k = Some e ->
               dict_get (fold_left (fill_default non_local) names l) k
               = Some e)
  /\ (forall k e,
        dict_get (fold_left (fill_default non_local) names l) k = Some e ->
        dict_get l k = Some e
        \/ exists name tier,
            In name names
            /\ snapshot_tier_of name = Some tier
            /\ k = snapshot_limit_property tier
            /\ dict_get non_local name = Some e)
  /\ (forall name tier e,
        In name names ->
        snapshot_tier_of name = Some tier ->
        dict_get non_local name = Some e ->
        dict_get (fold_left (fill_default non_local) names l)
                 (snapshot_limit_property tier) <> None).
Proof.
  revert l. induction names as [|name names IH]; intros l; simpl.
  - repeat split; auto.
  - destruct (fill_default_lookup non_local l name) as (S1 & S2 & S3).
    destruct (IH (fill_default non_local l name)) as (I1 & I2 & I3).
    repeat split.
    + intros k e Hk. apply I1, S1, Hk.
    + intros k e Hk. apply I2 in Hk.
      destruct Hk as [Hk|(n & t & Hin & Ht & -> & Hn)].
      * apply S2 in Hk. destruct Hk as [Hk|(t & Ht & -> & Hn)];
          [now left|].
        right. exists name, t. repeat split; auto.
      * right. exists n, t. repeat split; auto.
    + intros n t e [<-|Hin] Ht Hn.
      * specialize (S3 t e Ht Hn).
        destruct (dict_get (fill_default non_local l name)
                           (snapshot_limit_property t)) as [e1|] eqn:H1;
          [|congruence].
        rewrite (I1 _ _ H1). discriminate.
      * exact (I3 n t e Hin Ht Hn).
Qed.

Lemma format_tokens_effective (properties : property_set) :
  format_tokens properties
  = map (fun name => (name, format_token (effective_policy properties) name))
        (format_names (effective_policy properties)).
Proof.
  unfold format_tokens, effective_policy.
  now destruct (split_by_source properties).
Qed.

(** The tokens are the entries of [local_and_defaults]. *)
Lemma format_tokens_In (properties : property_set) (name token : string) :
  In (name, token) (format_tokens properties) <->
  exists entry,
    dict_get (effective_policy properties) name = Some entry
    /\ token = (name ++ "=" ++ fst entry)%string.
Proof.
  rewrite format_tokens_effective, in_map_iff. split.
  - intros (n & Heq & Hin). injection Heq as -> <-.
    apply (Permutation_in _ (format_names_perm _)) in Hin.
    apply dict_get_keys in Hin. unfold format_token.
    destruct (dict_get (effective_policy properties) name) as [entry|];
      [|congruence].
    now exists entry.
  - intros (entry & Hg & ->). exists name. split.
    + unfold format_token. now rewrite Hg.
    + apply (Permutation_in _ (Permutation_sym (format_names_perm _))).
      apply dict_get_keys. congruence.
Qed.

Lemma effective_policy_lookup (properties : property_set) :
  (forall k e, local_entry properties k = Some e ->
               dict_get (effective_policy properties) k = Some e)
  /\ (forall k e,
        dict_get (effective_policy properties) k = Some e ->
        local_entry properties k = Some e
        \/ exists name tier,
            snapshot_tier_of name = Some tier
            /\ k = snapshot_limit_property tier
            /\ non_local_entry properties name = Some e)
  /\ (forall name tier e,
        snapshot_tier_of name = Some tier ->
        non_local_entry properties name = Some e ->
        dict_get (effective_policy properties)
                 (snapshot_limit_property tier) <> None).
Proof.
  destruct (fill_defaults_lookup (snd (split_by_source properties))
              (dict_keys (snd (split_by_source properties)))
              (fst (split_by_source properties))) as (F1 & F2 & F3).
  change (fold_left _ _ _) with (effective_policy properties) in F1, F2, F3.
  repeat split.
  - intros k e Hk. apply F1.
    now rewrite (proj1 (split_by_source_lookup properties k)).
  - intros k e Hk. apply F2 in Hk.
    destruct Hk as [Hk|(n & t & _ & Ht & -> & Hn)].
    + left. now rewrite <- (proj1 (split_by_source_lookup properties k)).
    + right. exists n, t. repeat split; auto.
      now rewrite <- (proj2 (split_by_source_lookup properties n)).
  - intros n t e Ht Hn.
    rewrite <- (proj2 (split_by_source_lookup properties n)) in Hn.
    apply (F3 n t e); auto. apply dict_get_keys. congruence.
Qed.

(** X15. Every property with source [local] is shown, with its own value: a
    snapshot-limit that is set locally is not replaced by a received or
    inherited count. *)
Theorem format_shows_local_values (properties : property_set)
  (name value : string) :
  dict_get properties name = Some (value, "local") ->
  In (name, (name ++ "=" ++ value)%string) (format_tokens properties).
Proof.
  intros Hg. apply format_tokens_In. exists (value, "local").
  split; [|reflexivity].
  apply (proj1 (effective_policy_lookup properties)).
  unfold local_entry. now rewrite Hg.
Qed.

Lemma format_shows_local_values_witness :
  In ("daily-snapshot-limit", "daily-snapshot-limit=3")
     (format_tokens [("daily-snapshots", ("7", "received"));
                     ("daily-snapshot-limit", ("3", "local"))]).
Proof.
  apply (format_shows_local_values
           [("daily-snapshots", ("7", "received"));
            ("daily-snapshot-limit", ("3", "local"))]
           "daily-snapshot-limit" "3").
  reflexivity.
Defined.

(** X16. Nothing else is shown than local entries and snapshot-limit defaults:
    a token is a local entry of the set, or it is [<tier>-snapshot-limit]
    with the value of a [<tier>-snapshots] or [<tier>-snapshot-limit] entry
    whose source is not [local]. A [replica] or [replicate] that is not
    local, and a count that is not local under its own name, are never
    shown. *)
Theorem format_shows_only_local_and_defaults (properties : property_set)
  (name token : string) :
  In (name, token) (format_tokens properties) ->
  (exists value,
      dict_get properties name = Some (value, "local")
      /\ token = (name ++ "=" ++ value)%string)
  \/ (exists tier from value source,
         name = snapshot_limit_property tier
         /\ (from = snapshots_property tier
             \/ from = snapshot_limit_property tier)
         /\ dict_get properties from = Some (value, source)
         /\ source <> "local"
         /\ token = (name ++ "=" ++ value)%string).
Proof.
  intros Hin. apply format_tokens_In in Hin.
  destruct Hin as ([value source] & Hg & ->).
  apply (proj1 (proj2 (effective_policy_lookup properties))) in Hg.
  destruct Hg as [Hl|(from & tier & Ht & -> & Hn)].
  - left. exists value. split; [|reflexivity].
    unfold local_entry in Hl.
    destruct (dict_get properties name) as [[v s]|]; [|discriminate].
    simpl in Hl. destruct (String.eqb s "local") eqn:Hs; [|discriminate].
    apply String.eqb_eq in Hs. injection Hl as Hv _. congruence.
  - right. exists tier, from, value, source.
    split; [reflexivity|]. split; [now apply snapshot_tier_of_inv|].
    unfold non_local_entry in Hn.
    destruct (dict_get properties from) as [[v s]|]; [|discriminate].
    simpl in Hn. destruct (String.eqb s "local") eqn:Hs; [discriminate|].
    apply String.eqb_neq in Hs. injection Hn as Hv Hsrc.
    subst v s. now repeat split.
Qed.

Lemma format_shows_only_local_and_defaults_witness :
  (exists value,
      dict_get [("daily-snapshots", ("7", "received"))]
               "daily-snapshot-limit" = Some (value, "local")
      /\ "daily-snapshot-limit=7"
         = ("daily-snapshot-limit" ++ "=" ++ value)%string)
  \/ (exists tier from value source,
         "daily-snapshot-limit" = snapshot_limit_property tier
         /\ (from = snapshots_property tier
             \/ from = snapshot_limit_property tier)
         /\ dict_get [("daily-snapshots", ("7", "received"))] from
            = Some (value, source)
         /\ source <> "local"
         /\ "daily-snapshot-limit=7"
            = ("daily-snapshot-limit" ++ "=" ++ value)%string).
Proof.
  apply (format_shows_only_local_and_defaults
           [("daily-snapshots", ("7", "received"))]
           "daily-snapshot-limit" "daily-snapshot-limit=7").
  left. reflexivity.
Defined.

(** X17. A count that is not local is shown as the limit of its tier: when
    [<tier>-snapshots] has a source other than [local] and the set has no
    [<tier>-snapshot-limit], the tokens have [<tier>-snapshot-limit] with
    the value of the count, and no token named [<tier>-snapshots]. *)
Theorem format_shows_count_as_limit (properties : property_set)
  (tier value source : string) :
  dict_get properties (snapshots_property tier) = Some (value, source) ->
  source <> "local" ->
  dict_get properties (snapshot_limit_property tier) = None ->
  In (snapshot_limit_property tier,
      (snapshot_limit_property tier ++ "=" ++ value)%string)
     (format_tokens properties)
  /\ forall token,
      ~ In (snapshots_property tier, token) (format_tokens properties).
Proof.
  intros Hs Hsrc Hl.
  assert (Hnl : non_local_entry properties (snapshots_property tier)
                = Some (value, source)).
  { unfold non_local_entry. rewrite Hs. simpl.
    apply String.eqb_neq in Hsrc. now rewrite Hsrc. }
  destruct (effective_policy_lookup properties) as (E1 & E2 & E3).
  split.
  - apply format_tokens_In.
    pose proof (E3 _ tier _ (proj1 (snapshot_tier_of_tier_names' tier)) Hnl)
      as Hsome.
    destruct (dict_get (effective_policy properties)
                       (snapshot_limit_property tier)) as [e|] eqn:He;
      [|congruence].
    exists e. split; [reflexivity|].
    apply E2 in He. destruct He as [He|(from & t & Ht & Heq & Hn)].
    + unfold local_entry in He. rewrite Hl in He. discriminate.
    + apply append_suffix_inj in Heq. subst t.
      apply snapshot_tier_of_inv in Ht. destruct Ht as [-> | ->].
      * rewrite Hnl in Hn. now injection Hn as <-.
      * unfold non_local_entry in Hn. rewrite Hl in Hn. discriminate.
  - intros token Hin. apply format_tokens_In in Hin.
    destruct Hin as (e & He & _). apply E2 in He.
    destruct He as [He|(from & t & _ & Heq & _)].
    + unfold local_entry in He. rewrite Hs in He. simpl in He.
      apply String.eqb_neq in Hsrc. rewrite Hsrc in He. discriminate.
    + exact (snapshots_name_not_limit_name _ _ Heq).
Qed.

Lemma format_shows_count_as_limit_witness :
  let properties :=
    [("daily-snapshots", ("7", "received")); ("replica", ("h", "local"))] in
  In (snapshot_limit_property "daily",
      (snapshot_limit_property "daily" ++ "=" ++ "7")%string)
     (format_tokens properties)
  /\ forall token,
      ~ In (snapshots_property "daily", token) (format_tokens properties).
Proof.
  intros properties.
  apply (format_shows_count_as_limit properties "daily" "7" "received").
  - reflexivity.
  - discriminate.
  - reflexivity.
Defined.

(** ** Counts as text *)






(** ** The modes of the command line: what they run *)
















Lemma zpool_names_words (lines zpools : list string) (s : session) :
  Forall (fun line => bytes_split_ws line <> []) lines ->
  zpool_names lines zpools s
  = (inr (zpools
          ++ map (fun line => hd EmptyString (bytes_split_ws line)) lines),
     s).
Proof.
  intros H. revert zpools. induction H as [|line lines Hl _ IH];
    intros zpools; simpl.
  - now rewrite app_nil_r.
  - destruct (bytes_split_ws line) as [|first rest]; [congruence|].
    rewrite IH, <- app_assoc. reflexivity.
Qed.

Lemma zpool_names_blank (lines zpools : list string) (s : session) :
  Exists (fun line => bytes_split_ws line = []) lines ->
  zpool_names lines zpools s = (inl IndexError, s).
Proof.
  revert zpools. induction lines as [|line lines IH]; intros zpools H.
  - inversion H.
  - simpl. destruct (bytes_split_ws line) as [|first rest] eqn:Hw;
      [reflexivity|].
    apply IH. inversion H as [? ? Hb|? ? Hr]; [congruence | exact Hr].
Qed.

(** X22. [get_zpools] returns the first word of every line of [zpool list], in
    order, and when a line has no word it raises [IndexError]. The exit
    status of [zpool list] plays no part: a failed [zpool list] that wrote
    nothing gives no pools, and no error. *)
Theorem get_zpools_first_words (popen : list string -> list string * Z)
  (s : session) :
  (Forall (fun line => bytes_split_ws line <> [])
          (fst (popen ["zpool"; "list"; "-H"])) ->
   get_zpools popen s
   = (inr (map (fun line => hd EmptyString (bytes_split_ws line))
               (fst (popen ["zpool"; "list"; "-H"]))), s))
  /\ (Exists (fun line => bytes_split_ws line = [])
             (fst (popen ["zpool"; "list"; "-H"])) ->
      get_zpools popen s = (inl IndexError, s)).
Proof.
  unfold get_zpools. split.
  - intros H. now rewrite zpool_names_words.
  - apply zpool_names_blank.
Qed.

(** ** Setting and unsetting properties *)

Lemma length_split (c : ascii) (s : string) :
  List.length (Py.split c s) = Datatypes.S (count_char c s).
Proof.
  induction s as [|x s IH]; simpl; [reflexivity|].
  destruct (Ascii.eqb x c); simpl; [now rewrite IH|].
  destruct (Py.split c s); simpl in *; [discriminate | exact IH].
Qed.

Lemma join_split (c : ascii) (s : string) :
  Py.join (String c EmptyString) (Py.split c s) = s.
Proof.
  unfold Py.join. induction s as [|x s IH]; simpl; [reflexivity|].
  destruct (Ascii.eqb_spec x c) as [->|Hx].
  - pose proof (split_not_nil c s) as Hn.
    destruct (Py.split c s) as [|f r]; [congruence|].
    simpl in *. now rewrite IH.
  - pose proof (split_not_nil c s) as Hn.
    destruct (Py.split c s) as [|f r]; [congruence|].
    simpl in *. destruct r; simpl in *; now rewrite <- IH.
Qed.

Lemma reports_app (a b : list event) :
  reports (a ++ b) = reports a ++ reports b.
Proof.
  induction a as [|[msg|msg|cmd st] a IH]; simpl; [reflexivity|..];
    now rewrite IH.
Qed.

Lemma sdoes_ret : sdoes (sret tt) [] [] [].
Proof.
  intros s _. exists []. simpl. rewrite !app_nil_r.
  destruct s as [p [t q]]. now repeat split.
Qed.

Lemma sdoes_stdout_write (text : string) :
  sdoes (stdout_write text) [] [text] [].
Proof.
  intros s _. exists []. unfold stdout_write. simpl. rewrite app_nil_r.
  destruct s as [p [t q]]. now repeat split.
Qed.

Lemma sdoes_stderr_write (text : string) :
  sdoes (stderr_write text) [] [] [text].
Proof.
  intros s _. exists [Stderr text]. unfold stderr_write, lift, emit. simpl.
  rewrite app_nil_r. now repeat split.
Qed.

Lemma sdoes_check_call (cmd : list string) :
  sdoes (lift (check_call cmd)) [cmd] [] [].
Proof.
  intros s Hs. exists [Exec cmd 0]. unfold lift, check_call.
  assert (Hhd : hd 0%Z (pending (sys s)) = 0%Z).
  { unfold all_succeed in Hs. destruct (pending (sys s)) as [|x l];
      [reflexivity|]. now inversion Hs. }
  rewrite Hhd. simpl. rewrite app_nil_r.
  repeat split; destruct (pending (sys s)); reflexivity.
Qed.

Lemma sdoes_then (m k : S unit) (c1 c2 : list (list string))
  (o1 o2 e1 e2 : list string) :
  sdoes m c1 o1 e1 -> sdoes k c2 o2 e2 ->
  sdoes (m ;;; k) (c1 ++ c2) (o1 ++ o2) (e1 ++ e2).
Proof.
  intros Hm Hk s Hs. unfold sbind.
  destruct (Hm s Hs) as (evs1 & -> & Hx1 & Hr1).
  match goal with
  | |- context [k ?s1] =>
      destruct (Hk s1) as (evs2 & -> & Hx2 & Hr2);
        [exact (all_succeed_skipn (List.length c1) (sys s) _ Hs)|]
  end.
  exists (evs1 ++ evs2). simpl. split; [|split].
  - rewrite skipn_skipn, length_app, !app_assoc, Nat.add_comm. reflexivity.
  - now rewrite execs_app, Hx1, Hx2, map_app.
  - now rewrite reports_app, Hr1, Hr2.
Qed.

Lemma sdoes_for_each {A : Type} (l : list A) (body : A -> S unit)
  (cmds : A -> list (list string)) (out errs : A -> list string) :
  (forall x, sdoes (body x) (cmds x) (out x) (errs x)) ->
  sdoes (sfor_each l body) (flat_map cmds l) (flat_map out l)
        (flat_map errs l).
Proof.
  intros Hb. induction l as [|x l IH]; simpl.
  - apply sdoes_ret.
  - apply sdoes_then; [apply Hb | exact IH].
Qed.

Lemma flat_map_filter {A B : Type} (p : A -> bool) (f : A -> B)
  (l : list A) :
  flat_map (fun x => if p x then [f x] else []) l = map f (filter p l).
Proof.
  induction l as [|x l IH]; simpl; [reflexivity|].
  destruct (p x); simpl; now rewrite IH.
Qed.

(** One argument of [--set]. *)
Lemma sdoes_set_backup_property (filesystem property_value : string) :
  sdoes (set_backup_property filesystem property_value)
        (if (count_char "=" property_value =? 1)%nat
         then [["zfs"; "set"; zprefixed property_value; filesystem]]
         else [])
        (if (count_char "=" property_value =? 1)%nat
         then [command_line ["zfs"; "set"; zprefixed property_value;
                             filesystem]]
         else [])
        (if negb (count_char "=" property_value =? 1)%nat
         then [("zbackup: ignoring badly formatted property=value: "
                ++ property_value ++ String "010" EmptyString)%string]
         else []).
Proof.
  unfold set_backup_property.
  pose proof (length_split "=" property_value) as Hlen.
  pose proof (join_split "=" property_value) as Hjoin.
  destruct (Py.split "=" property_value) as [|prop [|value [|third rest]]];
    simpl in Hlen; [discriminate|..];
    injection Hlen as Hlen; rewrite <- Hlen; cbn [Nat.eqb negb].
  - apply sdoes_stderr_write.
  - unfold Py.join in Hjoin. simpl in Hjoin.
    replace (zprefixed prop ++ "=" ++ value)%string
      with (zprefixed property_value)
      by (rewrite <- Hjoin; unfold zprefixed;
          now rewrite !append_assoc).
    apply (sdoes_then _ _ [] [_] [_] [] [] []);
      [apply sdoes_stdout_write | apply sdoes_check_call].
  - apply sdoes_stderr_write.
Qed.

(** X23. [zbackup --set] with a [zfs] that succeeds. An argument with exactly
    one [=] is set: [zfs set] is run with the argument under the module
    prefix, after the command was printed. Any other argument, without [=]
    or with more than one, is reported on standard error and passed over,
    and the arguments after it are still dealt with. *)
Theorem set_backup_properties_runs (filesystem : string)
  (property_values : list string) (s : session) :
  all_succeed (sys s) ->
  exists evs,
    set_backup_properties filesystem property_values s
    = (inr tt,
       Session
         (printed s
          ++ map (fun property_value =>
                    command_line ["zfs"; "set"; zprefixed property_value;
                                  filesystem])
                 (filter (fun property_value =>
                            (count_char "=" property_value =? 1)%nat)
                         property_values))
         (World (trace (sys s) ++ evs)
                (skipn (List.length
                          (filter (fun property_value =>
                                     (count_char "=" property_value =? 1)%nat)
                                  property_values))
                       (pending (sys s)))))
    /\ execs evs
       = map (fun property_value =>
                Exec ["zfs"; "set"; zprefixed property_value; filesystem] 0)
             (filter (fun property_value =>
                        (count_char "=" property_value =? 1)%nat)
                     property_values)
    /\ reports evs
       = map (fun property_value =>
                ("zbackup: ignoring badly formatted property=value: "
                 ++ property_value ++ String "010" EmptyString)%string)
             (filter (fun property_value =>
                        negb (count_char "=" property_value =? 1)%nat)
                     property_values).
Proof.
  intros Hs.
  destruct (sdoes_for_each property_values (set_backup_property filesystem)
              _ _ _ (sdoes_set_backup_property filesystem) s Hs)
    as (evs & Hrun & Hx & Hr).
  rewrite !flat_map_filter in *. rewrite length_map in Hrun.
  exists evs. unfold set_backup_properties. rewrite Hrun, Hx, Hr.
  rewrite map_map. now repeat split.
Qed.

Lemma set_backup_properties_runs_witness :
  exists evs,
    set_backup_properties "tank/home" ["replica=host/pool"; "bad"; "a=b=c"] s0
    = (inr tt,
       Session
         ["zfs set com.github.tesujimath.zbackup:replica=host/pool tank/home
"]
         (World evs []))
    /\ execs evs
       = [Exec ["zfs"; "set";
                "com.github.tesujimath.zbackup:replica=host/pool";
                "tank/home"] 0]
    /\ reports evs
       = ["zbackup: ignoring badly formatted property=value: bad
";
          "zbackup: ignoring badly formatted property=value: a=b=c
"].
Proof.
  apply (set_backup_properties_runs "tank/home"
           ["replica=host/pool"; "bad"; "a=b=c"] s0).
  constructor.
Defined.

(** X24. [zbackup --unset] with a [zfs] that succeeds: for every property, in
    the order of the arguments, the command is printed and [zfs inherit] is
    run on the property under the module prefix; nothing is reported. *)
Theorem unset_backup_properties_runs (filesystem : string)
  (properties : list string) (s : session) :
  all_succeed (sys s) ->
  exists evs,
    unset_backup_properties filesystem properties s
    = (inr tt,
       Session
         (printed s
          ++ map (fun prop =>
                    command_line ["zfs"; "inherit"; zprefixed prop;
                                  filesystem])
                 properties)
         (World (trace (sys s) ++ evs)
                (skipn (List.length properties) (pending (sys s)))))
    /\ execs evs
       = map (fun prop =>
                Exec ["zfs"; "inherit"; zprefixed prop; filesystem] 0)
             properties
    /\ reports evs = [].
Proof.
  intros Hs.
  destruct (sdoes_for_each properties
              (fun prop =>
                 stdout_write
                   (Py.join " " ["zfs"; "inherit"; zprefixed prop; filesystem]
                    ++ String "010" EmptyString) ;;;
                 lift (check_call ["zfs"; "inherit"; zprefixed prop;
                                   filesystem]))
              (fun prop => [["zfs"; "inherit"; zprefixed prop; filesystem]])
              (fun prop => [command_line ["zfs"; "inherit"; zprefixed prop;
                                          filesystem]])
              (fun _ => [])) with (s := s) as (evs & Hrun & Hx & Hr).
  - intros prop.
    apply (sdoes_then _ _ [] [_] [_] [] [] []);
      [apply sdoes_stdout_write | apply sdoes_check_call].
  - exact Hs.
  - rewrite !flat_map_single in *. rewrite length_map in Hrun.
    exists evs. unfold unset_backup_properties. rewrite Hrun, Hx, Hr.
    rewrite map_map. repeat split.
    clear. induction properties as [|prop properties IH];
      [reflexivity | exact IH].
Qed.

Lemma unset_backup_properties_runs_witness :
  exists evs,
    unset_backup_properties "tank/home" ["replica"; "replicate"] s0
    = (inr tt,
       Session
         ["zfs inherit com.github.tesujimath.zbackup:replica tank/home
";
          "zfs inherit com.github.tesujimath.zbackup:replicate tank/home
"]
         (World evs []))
    /\ execs evs
       = [Exec ["zfs"; "inherit"; "com.github.tesujimath.zbackup:replica";
                "tank/home"] 0;
          Exec ["zfs"; "inherit"; "com.github.tesujimath.zbackup:replicate";
                "tank/home"] 0]
    /\ reports evs = [].
Proof.
  apply (unset_backup_properties_runs "tank/home" ["replica"; "replicate"]
           s0).
  constructor.
Defined.

(** ** Listing the properties *)

Lemma sfor_each_print (backup_properties : dict property_set)
  (filesystems : list string) (s : session) :
  (forall filesystem, In filesystem filesystems ->
                      dict_get backup_properties filesystem <> None) ->
  sfor_each filesystems
    (fun filesystem =>
       match dict_get backup_properties filesystem with
       | Some properties =>
           stdout_write (filesystem ++ " "
                         ++ format_backup_properties properties
                         ++ String "010" EmptyString)
       | None => sret tt
       end) s
  = (inr tt,
     Session
       (printed s
        ++ map (fun filesystem =>
                  (filesystem ++ " "
                   ++ format_backup_properties
                        (match dict_get backup_properties filesystem with
                         | Some properties => properties
                         | None => []
                         end)
                   ++ String "010" EmptyString)%string)
               filesystems)
       (sys s)).
Proof.
  revert s. induction filesystems as [|filesystem filesystems IH];
    intros s Hall; simpl.
  - rewrite app_nil_r. now destruct s.
  - unfold sbind.
    destruct (dict_get backup_properties filesystem) as [properties|] eqn:Hg;
      [|exfalso; apply (Hall filesystem); [now left | exact Hg]].
    unfold stdout_write at 1. rewrite IH.
    + simpl. now rewrite <- app_assoc.
    + intros fs Hfs. apply Hall. now right.
Qed.

(** X25. [zbackup --list] for one pool, when the reader returns: one line is
    printed for every filesystem that the reader returns, in the lexical
    order of the filesystems, made of the filesystem, a space and its
    formatted properties; the world is as the reader left it. *)
Theorem list_pool_prints (popen : list string -> list string * Z)
  (zpool : string) (s : session) (backup_properties : dict property_set)
  (w' : world) :
  get_backup_properties popen zpool None (sys s)
  = (inr backup_properties, w') ->
  list_pool popen zpool s
  = (inr tt,
     Session
       (printed s
        ++ map (fun filesystem =>
                  (filesystem ++ " "
                   ++ format_backup_properties
                        (match dict_get backup_properties filesystem with
                         | Some properties => properties
                         | None => []
                         end)
                   ++ String "010" EmptyString)%string)
               (sorted (dict_keys backup_properties)))
       w')
  /\ StronglySorted name_le (sorted (dict_keys backup_properties))
  /\ Permutation (sorted (dict_keys backup_properties))
                 (dict_keys backup_properties).
Proof.
  intros Hrun. split; [|split; [apply sorted_sorted | apply sorted_perm]].
  unfold list_pool, sbind, lift. rewrite Hrun.
  rewrite sfor_each_print; [reflexivity|].
  intros filesystem Hin. apply dict_get_keys.
  exact (Permutation_in _ (sorted_perm _) Hin).
Qed.

Lemma list_pool_prints_witness :
  list_pool popen_tank "tank" s0
  = (inr tt,
     Session
       (printed s0
        ++ map (fun filesystem =>
                  (filesystem ++ " "
                   ++ format_backup_properties
                        (match dict_get
                                 [("tank/home",
                                   [("daily-snapshots", ("7", "local"))])]
                                 filesystem with
                         | Some properties => properties
                         | None => []
                         end)
                   ++ String "010" EmptyString)%string)
               (sorted (dict_keys [("tank/home",
                                    [("daily-snapshots", ("7", "local"))])])))
       (World [VerboseStderr "tank/home daily-snapshots=7 local"] []))
  /\ StronglySorted name_le
       (sorted (dict_keys [("tank/home",
                            [("daily-snapshots", ("7", "local"))])]))
  /\ Permutation
       (sorted (dict_keys [("tank/home",
                            [("daily-snapshots", ("7", "local"))])]))
       (dict_keys [("tank/home", [("daily-snapshots", ("7", "local"))])]).
Proof.
  apply (list_pool_prints popen_tank "tank" s0
           [("tank/home", [("daily-snapshots", ("7", "local"))])]
           (World [VerboseStderr "tank/home daily-snapshots=7 local"] [])).
  reflexivity.
Defined.

(** ** The destination of a replication *)

(** X26. When replication is requested for the tier and the [replica] value has
    no comma, [replicate] is called exactly once, with the value as the
    destination. *)
Theorem replica_without_comma_is_the_target (tier replica : string)
  (properties : property_set) :
  tier <> "none" ->
  dict_get properties REPLICATE_PROPERTY = Some (tier, "local") ->
  dict_get properties REPLICA_PROPERTY = Some (replica, "local") ->
  replica <> "none" ->
  Py.has_char "," replica = false ->
  replica_targets tier properties = [replica].
Proof.
  intros Ht Hrep Hr Hn Hc.
  unfold replica_targets, replicate_requested, property_has_value.
  rewrite Hrep, Hr.
  apply String.eqb_neq in Ht, Hn. rewrite Ht, Hn, !String.eqb_refl. simpl.
  now rewrite split_one.
Qed.

Lemma replica_without_comma_is_the_target_witness :
  replica_targets "daily"
    [("replicate", ("daily", "local")); ("replica", ("host/pool", "local"))]
  = ["host/pool"].
Proof.
  apply (replica_without_comma_is_the_target "daily" "host/pool"
           [("replicate", ("daily", "local"));
            ("replica", ("host/pool", "local"))]);
    try reflexivity; discriminate.
Defined.
